(** * Conflict-formset and allocation views of [adjallocation/views.py]

    A shallow embedding of [src/tabbycat/adjallocation/views.py] together
    with the part of the form/formset machinery the views drive, and the
    properties of the views stated over it.

    Layout: data model, ORM queries, form fields and the deduplicating
    choice iterator, formsets, the view classes, the drag-and-drop views;
    then the lemmas. *)

From Stdlib Require Import Ascii.
From stdpp Require Import base option list gmap fin_maps strings sorting pretty.

Set Default Proof Using "Type".
Set Warnings "-register-all".
Open Scope string_scope.
Open Scope list_scope.

(* ===================================================================== *)
(** * Data model *)
(* ===================================================================== *)

(** Modelled from the spec: the model classes ([participants.models],
    [adjallocation.models]) are imported by the view module but declared
    elsewhere.  Section 3 of the specification gives their shape: an
    adjudicator and a team belong to a tournament, a team has a short name
    and a code name, an institution is shared, and each of the four conflict
    relations is a row pairing two parties. *)

Definition Tournament := nat.
Definition User := nat.

Record Adjudicator := {
  adj_id : nat;
  adj_name : string;
  adj_tournament : Tournament;
}.

Record Team := {
  team_id : nat;
  short_name : string;
  code_name : string;
  team_tournament : Tournament;
}.

Record Institution := {
  inst_id : nat;
  inst_name : string;
}.

(** A row of one of the four conflict tables: primary key and the two
    foreign keys, in the order of the view's [fields] tuple. *)
Record Conflict := {
  pk : nat;
  fk1 : nat;
  fk2 : nat;
}.

Record Region := {
  region_id : nat;
  region_name : string;
}.

Record PreformedPanel := {
  panel_id : nat;
  panel_round : nat;
  panel_adjudicators : list nat;
}.

Record Debate := {
  debate_id : nat;
  debate_round : nat;
  debate_adjudicators : list nat;
}.

(** The persisted state.  Each conflict table comes with the sequence its
    keys are drawn from: the last key issued, which only grows, so that the
    key of a deleted row is not issued again. *)
Record DB := {
  adjudicators : list Adjudicator;
  teams : list Team;
  institutions : list Institution;
  adjudicatorteamconflicts : list Conflict;
  adjudicatoradjudicatorconflicts : list Conflict;
  adjudicatorinstitutionconflicts : list Conflict;
  teaminstitutionconflicts : list Conflict;
  adjudicatorteamconflict_id_seq : nat;
  adjudicatoradjudicatorconflict_id_seq : nat;
  adjudicatorinstitutionconflict_id_seq : nat;
  teaminstitutionconflict_id_seq : nat;
  regions : list Region;
  debates : list Debate;
  preformedpanels : list PreformedPanel;
  preferences : gmap string nat;
}.

(** A model instance as a choice field or a formset sees it. *)
Inductive Obj :=
  | AdjudicatorObj (a : Adjudicator)
  | TeamObj (t : Team)
  | InstitutionObj (i : Institution)
  | ConflictObj (c : Conflict).

Definition obj_pk (o : Obj) : nat :=
  match o with
  | AdjudicatorObj a => adj_id a
  | TeamObj t => team_id t
  | InstitutionObj i => inst_id i
  | ConflictObj c => pk c
  end.

(** [users.permissions.Permission]: the members the view module names. *)
Inductive Permission :=
  | VIEW_DEBATEADJUDICATORS | EDIT_DEBATEADJUDICATORS
  | VIEW_PREFORMEDPANELS | EDIT_PREFORMEDPANELS
  | VIEW_ADJ_TEAM_CONFLICTS | EDIT_ADJ_TEAM_CONFLICTS
  | VIEW_ADJ_ADJ_CONFLICTS | EDIT_ADJ_ADJ_CONFLICTS
  | VIEW_ADJ_INST_CONFLICTS | EDIT_ADJ_INST_CONFLICTS
  | VIEW_TEAM_INST_CONFLICTS | EDIT_TEAM_INST_CONFLICTS.

Inductive Method := GET | POST.

Record Request := {
  method : Method;
  user : User;
  POST_data : gmap string string;
}.

(** Helpers of the repository that the view module imports and that are
    declared elsewhere; the views are parametric in them. *)
Class Collaborators := {
  (** [users.permissions.has_permission(user, permission, tournament)] *)
  has_permission : User → Permission → Tournament → bool;
  (** [options.utils.use_team_code_names(tournament, admin, user)] *)
  use_team_code_names : Tournament → bool → User → bool;
  (** [utils.misc.reverse_tournament(view_name, tournament)] *)
  reverse_tournament : string → Tournament → string;
  (** [str(obj)], the label a plain model choice field shows *)
  obj_str : Obj → string;
  (** model-level validation of a submitted row set (uniqueness of pairs
      and the like), which the form layer runs after field cleaning *)
  validate_unique : list Conflict → list (nat * nat) → bool;
}.

(* ===================================================================== *)
(** * ORM queries *)
(* ===================================================================== *)

Module ORM.

(** [order_by(key)]: ascending by a string column. *)
Definition key_le {A} (key : A → string) : relation A :=
  λ x y, String.le (key x) (key y).

Global Instance key_le_dec {A} (key : A → string) : RelDecision (key_le key).
Proof. intros x y. unfold key_le. apply _. Defined.

Definition order_by {A} (key : A → string) (rows : list A) : list A :=
  merge_sort (key_le key) rows.

(** [tournament.adjudicator_set]: the reverse side of the foreign key. *)
Definition adjudicator_set (t : Tournament) (db : DB) : list Adjudicator :=
  filter (λ a, adj_tournament a = t) (adjudicators db).

Definition team_set (t : Tournament) (db : DB) : list Team :=
  filter (λ x, team_tournament x = t) (teams db).

(** Following a foreign key ([adjudicator__...], [team__...]): the join
    drops a row whose target does not exist. *)
Definition get_adjudicator (db : DB) (id : nat) : option Adjudicator :=
  list_find (λ a, adj_id a = id) (adjudicators db) ≫= λ p, Some p.2.

Definition get_team (db : DB) (id : nat) : option Team :=
  list_find (λ x, team_id x = id) (teams db) ≫= λ p, Some p.2.

(** A lazy queryset: the query it stands for and the rows it has cached
    once it has been evaluated. *)
Record QuerySet := {
  query : DB → list Obj;
  _result_cache : option (list Obj);
}.

Definition mk_queryset (q : DB → list Obj) : QuerySet :=
  {| query := q; _result_cache := None |}.

(** [QuerySet._fetch_all]: hit the database once, then serve the cache. *)
Definition fetch_all (db : DB) (qs : QuerySet) : QuerySet * list Obj :=
  match _result_cache qs with
  | Some rows => (qs, rows)
  | None =>
      let rows := query qs db in
      ({| query := query qs; _result_cache := Some rows |}, rows)
  end.

(** [queryset.get(pk=...)] and friends run a fresh query. *)
Definition fresh_rows (db : DB) (qs : QuerySet) : list Obj := query qs db.

End ORM.
Import ORM.

(* ===================================================================== *)
(** * Form fields and the deduplicating choice iterator *)
(* ===================================================================== *)

Inductive FieldClass :=
  | ModelChoiceField        (* the framework's field: hidden primary key *)
  | DedupModelChoiceField
  | TeamChoiceField         (* subclass of DedupModelChoiceField *)
  | BooleanField.           (* the DELETE checkbox *)

Record Field := {
  field_class : FieldClass;
  required : bool;
  disabled : bool;
  empty_label : option string;
  queryset : QuerySet;
  (** attribute the views set on a [TeamChoiceField]; [None] until then *)
  use_code_names : option bool;
}.

Definition set_disabled (b : bool) (f : Field) : Field :=
  {| field_class := field_class f; required := required f; disabled := b;
     empty_label := empty_label f; queryset := queryset f;
     use_code_names := use_code_names f |}.

(** [DedupModelChoiceField._set_queryset]: keeps the very queryset object
    it is given (no clone), so its row cache is kept too. *)
Definition _set_queryset (qs : QuerySet) (f : Field) : Field :=
  {| field_class := field_class f; required := required f;
     disabled := disabled f; empty_label := empty_label f; queryset := qs;
     use_code_names := use_code_names f |}.

Definition set_use_code_names (b : bool) (f : Field) : Field :=
  {| field_class := field_class f; required := required f;
     disabled := disabled f; empty_label := empty_label f;
     queryset := queryset f; use_code_names := Some b |}.

(** The value half of a choice: [""] for the blank option, otherwise the
    framework's wrapper around the row's primary key. *)
Inductive ChoiceValue :=
  | EmptyValue
  | ModelChoiceIteratorValue (value : nat) (instance : Obj).

Abbreviation Choice := (ChoiceValue * string)%type.

Definition is_blank (c : Choice) : bool :=
  match c.1 with EmptyValue => true | _ => false end.

Section Fields.
Context `{Collaborators}.

(** [TeamChoiceField.label_from_instance]; the other classes keep the
    framework's [str(obj)].  [None] stands for the [AttributeError] of a
    missing attribute. *)
Definition label_from_instance (f : Field) (obj : Obj) : option string :=
  match field_class f with
  | TeamChoiceField =>
      ucn ← use_code_names f;
      match obj with
      | TeamObj t => Some (if ucn : bool then code_name t else short_name t)
      | _ => None
      end
  | _ => Some (obj_str obj)
  end.

(** [ModelChoiceIterator.choice] *)
Definition choice (f : Field) (obj : Obj) : option Choice :=
  lbl ← label_from_instance f obj;
  Some (ModelChoiceIteratorValue (obj_pk obj) obj, lbl).

(** [DedupModelChoiceIterator.__iter__], run to completion: the field with
    its queryset as the iteration leaves it, and the items yielded ([None]
    when a label raised). *)
Definition DedupModelChoiceIterator__iter__ (db : DB) (f : Field)
  : Field * option (list Choice) :=
  let blank :=
    match empty_label f with
    | Some l => [(EmptyValue, l)]
    | None => []
    end in
  let '(qs, rows) := fetch_all db (queryset f) in
  (_set_queryset qs f, items ← mapM (choice f) rows; Some (blank ++ items)).

(** Iterating the options once per element of [dbs], each time against the
    database as it is then. *)
Fixpoint iterations (dbs : list DB) (f : Field) : list (option (list Choice)) :=
  match dbs with
  | [] => []
  | db :: dbs' =>
      let '(f', out) := DedupModelChoiceIterator__iter__ db f in
      out :: iterations dbs' f'
  end.

End Fields.

(* ===================================================================== *)
(** * Model formsets *)
(* ===================================================================== *)

(** The form layer the views are built on, as far as the views drive it:
    how a model formset is built from a factory's keyword arguments, bound
    to submitted data, validated and saved. *)

Module Forms.

(** A value of the keyword-argument dict handed to the formset factory. *)
Inductive KwArg :=
  | KInt (n : nat)
  | KBool (b : bool)
  | KFields (names : list string)
  | KFieldClasses (classes : gmap string FieldClass).

Record FormSetClass := {
  fc_fields : list string;
  fc_field_classes : gmap string FieldClass;
  extra : nat;
  can_delete : bool;
  max_num : nat;
  absolute_max : nat;
}.

(** [modelformset_factory(model, **kwargs)] with the factory's defaults. *)
Definition modelformset_factory (kwargs : gmap string KwArg) : FormSetClass :=
  {| fc_fields := match kwargs !! "fields" with
                  | Some (KFields l) => l
                  | _ => []
                  end;
     fc_field_classes := match kwargs !! "field_classes" with
                         | Some (KFieldClasses m) => m
                         | _ => ∅
                         end;
     extra := match kwargs !! "extra" with Some (KInt n) => n | _ => 1 end;
     can_delete := match kwargs !! "can_delete" with
                   | Some (KBool b) => b
                   | _ => false
                   end;
     max_num := 1000;
     absolute_max := 2000 |}.

Record Form := {
  prefix : string;
  form_is_bound : bool;
  form_data : gmap string string;
  instance : option Conflict;
  initial : gmap string nat;
  fields : gmap string Field;
  empty_permitted : bool;
}.

Definition set_fields (fs : gmap string Field) (form : Form) : Form :=
  {| prefix := prefix form; form_is_bound := form_is_bound form;
     form_data := form_data form; instance := instance form;
     initial := initial form; fields := fs;
     empty_permitted := empty_permitted form |}.

Record FormSet := {
  formset_class : FormSetClass;
  is_bound : bool;
  data : gmap string string;
  get_queryset : list Conflict;
  forms : list Form;
}.

Definition set_forms (l : list Form) (fs : FormSet) : FormSet :=
  {| formset_class := formset_class fs; is_bound := is_bound fs;
     data := data fs; get_queryset := get_queryset fs; forms := l |}.

(** ** Numerals of the submitted data *)

(** Python's [str.isspace] on an ASCII character. *)
Definition isspace (c : ascii) : bool :=
  let n := nat_of_ascii c in
  bool_decide (9 ≤ n ∧ n ≤ 13)%nat || bool_decide (28 ≤ n ∧ n ≤ 32)%nat.

Fixpoint lstrip (s : string) : string :=
  match s with
  | EmptyString => EmptyString
  | String c s' => if isspace c then lstrip s' else s
  end.

Definition strip (s : string) : string :=
  String.rev (lstrip (String.rev (lstrip s))).

(** The digits of a numeral: at least one, and single underscores may
    stand between two of them. *)
Fixpoint parse_digits (acc : nat) (after_digit : bool) (s : string)
  : option nat :=
  match s with
  | EmptyString => if after_digit then Some acc else None
  | String c s' =>
      if bool_decide (c = "_"%char) then
        if after_digit then parse_digits acc false s' else None
      else d ← Ascii.is_nat c; parse_digits (10 * acc + d) true s'
  end.

Fixpoint count_digits (s : string) : nat :=
  match s with
  | EmptyString => 0
  | String c s' =>
      (match Ascii.is_nat c with Some _ => 1 | None => 0 end) + count_digits s'
  end.

(** The interpreter's default bound on the digits of a numeral it
    converts. *)
Definition max_str_digits : nat := 4300.

(** Python's [int()] on a string of ASCII characters: white space around
    the numeral is dropped, a sign may lead it, and a numeral of more than
    [max_str_digits] digits is refused.  [None] is the [ValueError]. *)
Definition parse_int (s : string) : option Z :=
  let body := strip s in
  if bool_decide (max_str_digits < count_digits body)%nat then None
  else match body with
       | String "+"%char ds => Z.of_nat <$> parse_digits 0 false ds
       | String "-"%char ds => Z.opp ∘ Z.of_nat <$> parse_digits 0 false ds
       | ds => Z.of_nat <$> parse_digits 0 false ds
       end.

(** A primary key read from submitted data: keys are not negative, so a
    negative numeral names no row. *)
Definition parse_nat (s : string) : option nat :=
  z ← parse_int s; if bool_decide (0 ≤ z)%Z then Some (Z.to_nat z) else None.

Fixpoint drop_while (P : ascii → bool) (s : string) : string :=
  match s with
  | EmptyString => EmptyString
  | String c s' => if P c then drop_while P s' else s
  end.

(** [re_decimal.sub("", value)] of the form layer's integer field, whose
    pattern is a decimal point, zeros and white space at the end of the
    value. *)
Definition re_decimal_sub (s : string) : string :=
  match drop_while (λ c, bool_decide (c = "0"%char))
          (drop_while isspace (String.rev s)) with
  | String "."%char rest => String.rev rest
  | _ => s
  end.

(** [forms.IntegerField.to_python]: the empty value is no number; otherwise
    [int()] reads the value without its trailing decimal part.  The outer
    [None] is a validation error. *)
Definition IntegerField_to_python (raw : option string) : option (option Z) :=
  match raw with
  | None => Some None
  | Some s =>
      if bool_decide (s = "") then Some None
      else z ← parse_int (re_decimal_sub s); Some (Some z)
  end.

Definition lower_ascii (c : ascii) : ascii :=
  let n := nat_of_ascii c in
  if bool_decide (65 ≤ n ∧ n ≤ 90)%nat then ascii_of_nat (n + 32) else c.

Fixpoint lower (s : string) : string :=
  match s with
  | EmptyString => EmptyString
  | String c s' => String (lower_ascii c) (lower s')
  end.

(** What a checkbox reads from the submitted data: absent, empty and
    ["false"] are off, anything else is on. *)
Definition checkbox_value (raw : option string) : bool :=
  match raw with
  | None => false
  | Some s => negb (bool_decide (s = "") || bool_decide (lower s = "false"))
  end.

(** The management form of a bound formset after cleaning: the two
    counters the formset trusts, each 0 when its field did not clean, and
    whether every field cleaned.  The two counters are required; the echoed
    bounds [MIN_NUM_FORMS] and [MAX_NUM_FORMS] are not. *)
Record ManagementForm := {
  TOTAL_FORMS : Z;
  INITIAL_FORMS : Z;
  management_form_is_valid : bool;
}.

Definition management_form (d : gmap string string) : ManagementForm :=
  let required_field (name : string) : option Z :=
    mjoin (IntegerField_to_python (d !! ("form-" +:+ name))) in
  let optional_field_ok (name : string) : bool :=
    bool_decide (is_Some (IntegerField_to_python (d !! ("form-" +:+ name)))) in
  let total := required_field "TOTAL_FORMS" in
  let init := required_field "INITIAL_FORMS" in
  {| TOTAL_FORMS := default 0%Z total;
     INITIAL_FORMS := default 0%Z init;
     management_form_is_valid :=
       bool_decide (is_Some total) && bool_decide (is_Some init)
       && optional_field_ok "MIN_NUM_FORMS"
       && optional_field_ok "MAX_NUM_FORMS" |}.

Definition initial_form_count (fs : FormSet) : Z :=
  if is_bound fs then INITIAL_FORMS (management_form (data fs))
  else Z.of_nat (length (get_queryset fs)).

(** The number of forms built; a bound formset builds [range(n)] forms for
    the declared count [n], which is none for a negative one. *)
Definition total_form_count (cls : FormSetClass) (bound : bool)
    (d : gmap string string) (rows : list Conflict) : nat :=
  if bound then
    Z.to_nat (Z.min (TOTAL_FORMS (management_form d))
                (Z.of_nat (absolute_max cls)))
  else
    let initial_forms := length rows in
    let total_forms := initial_forms + extra cls in
    if bool_decide (max_num cls < initial_forms)%nat then initial_forms
    else if bool_decide (max_num cls < total_forms)%nat then max_num cls
    else total_forms.

(** The default choices of a foreign-key field: every row of the model the
    key points to. *)
Definition default_queryset (name : string) : QuerySet :=
  if bool_decide (name = "team") then
    mk_queryset (λ db, TeamObj <$> teams db)
  else if bool_decide (name = "institution") then
    mk_queryset (λ db, InstitutionObj <$> institutions db)
  else mk_queryset (λ db, AdjudicatorObj <$> adjudicators db).

Definition model_field (cls : FormSetClass) (name : string) : Field :=
  {| field_class := default ModelChoiceField (fc_field_classes cls !! name);
     required := true; disabled := false;
     empty_label := Some "---------";
     queryset := default_queryset name;
     use_code_names := None |}.

Definition pk_field (rows : list Conflict) (pk_required : bool) : Field :=
  {| field_class := ModelChoiceField; required := pk_required;
     disabled := false; empty_label := Some "---------";
     queryset := mk_queryset (λ _, ConflictObj <$> rows);
     use_code_names := None |}.

Definition deletion_field : Field :=
  {| field_class := BooleanField; required := false; disabled := false;
     empty_label := None; queryset := mk_queryset (λ _, []);
     use_code_names := None |}.

Definition _existing_object (rows : list Conflict) (k : nat) : option Conflict :=
  list_find (λ c, pk c = k) rows ≫= λ p, Some p.2.

(** [model_to_dict(instance, fields)] plus the primary key. *)
Definition model_to_dict (cls : FormSetClass) (inst : option Conflict)
  : gmap string nat :=
  match inst with
  | None => ∅
  | Some c =>
      <["id" := pk c]> (list_to_map (zip (fc_fields cls) [fk1 c; fk2 c]))
  end.

Definition _construct_form (cls : FormSetClass) (bound : bool)
    (d : gmap string string) (rows : list Conflict) (initial_count : Z)
    (i : nat) : Form :=
  let pfx := "form-" +:+ pretty i in
  let pk_required := bool_decide (Z.of_nat i < initial_count)%Z in
  let inst : option Conflict :=
    if pk_required then
      if bound then
        k ← d !! (pfx +:+ "-id") ≫= parse_nat; _existing_object rows k
      else rows !! i
    else None in
  let base : gmap string Field :=
    list_to_map ((λ n, (n, model_field cls n)) <$> fc_fields cls) in
  let with_pk := <["id" := pk_field rows pk_required]> base in
  let all : gmap string Field :=
    if can_delete cls then <["DELETE" := deletion_field]> with_pk
    else with_pk in
  {| prefix := pfx; form_is_bound := bound; form_data := d;
     instance := inst; initial := model_to_dict cls inst; fields := all;
     empty_permitted := negb pk_required |}.

(** Building the formset: unbound over the rows of its queryset, or bound
    to submitted data. *)
Definition build_formset (cls : FormSetClass) (bound : bool)
    (d : gmap string string) (rows : list Conflict) : FormSet :=
  let probe := {| formset_class := cls; is_bound := bound; data := d;
                  get_queryset := rows; forms := [] |} in
  let n0 := initial_form_count probe in
  set_forms
    ((λ i, _construct_form cls bound d rows n0 i)
       <$> seq 0 (total_form_count cls bound d rows))
    probe.

(** Where the bound [n] of a Python slice falls in a list of length
    [len]: a negative bound counts from the end. *)
Definition slice_index (n : Z) (len : nat) : nat :=
  if bool_decide (n < 0)%Z then Z.to_nat (Z.of_nat len + n) else Z.to_nat n.

(** [forms[:initial_form_count()]] and [forms[initial_form_count():]] *)
Definition initial_forms (fs : FormSet) : list Form :=
  take (slice_index (initial_form_count fs) (length (forms fs))) (forms fs).

Definition extra_forms (fs : FormSet) : list Form :=
  drop (slice_index (initial_form_count fs) (length (forms fs))) (forms fs).

(** ** Bound data, change detection and cleaning *)

Definition bound_data (form : Form) (name : string) : option string :=
  if form_is_bound form then form_data form !! (prefix form +:+ "-" +:+ name)
  else None.

Definition prepare_value (v : option nat) : string :=
  match v with Some n => pretty n | None => "" end.

(** [Field.has_changed]: a disabled field never reports a change. *)
Definition field_has_changed (f : Field) (init : option nat)
    (raw : option string) : bool :=
  if disabled f then false
  else match field_class f with
       | BooleanField => checkbox_value raw
       | _ => bool_decide (prepare_value init ≠ default "" raw)
       end.

Definition has_changed (form : Form) : bool :=
  existsb
    (λ nf : string * Field,
       field_has_changed nf.2 (initial form !! nf.1) (bound_data form nf.1))
    (map_to_list (fields form)).

(** The value a field cleans: a disabled field takes its initial value and
    ignores what was submitted. *)
Definition field_value (form : Form) (name : string) (f : Field) : string :=
  if disabled f then prepare_value (initial form !! name)
  else default "" (bound_data form name).

(** [ModelChoiceField.clean]: outer [None] is a validation error, inner
    [None] the empty value. *)
Definition to_python (db : DB) (form : Form) (name : string) (f : Field)
  : option (option nat) :=
  let raw := field_value form name f in
  if bool_decide (raw = "") then
    if required f then None else Some None
  else
    k ← parse_nat raw;
    if bool_decide (k ∈ obj_pk <$> fresh_rows db (queryset f))
    then Some (Some k) else None.

Definition field_clean_ok (db : DB) (form : Form) (nf : string * Field) : bool :=
  match field_class nf.2 with
  | BooleanField => true
  | _ => bool_decide (is_Some (to_python db form nf.1 nf.2))
  end.

(** A blank extra row is skipped by validation. *)
Definition skipped (form : Form) : bool :=
  empty_permitted form && negb (has_changed form).

Definition form_is_valid (db : DB) (form : Form) : bool :=
  form_is_bound form &&
  (skipped form || forallb (field_clean_ok db form) (map_to_list (fields form))).

Definition _should_delete_form (form : Form) : bool :=
  if skipped form then false
  else match fields form !! "DELETE" with
       | Some f =>
           if disabled f then false
           else checkbox_value (bound_data form "DELETE")
       | None => false
       end.

Definition cleaned_fk (db : DB) (form : Form) (name : string) : option nat :=
  f ← fields form !! name; mjoin (to_python db form name f).

Definition cleaned_pair (db : DB) (cls : FormSetClass) (form : Form)
  : option (nat * nat) :=
  match fc_fields cls with
  | [a; b] => x ← cleaned_fk db form a; y ← cleaned_fk db form b; Some (x, y)
  | _ => None
  end.

End Forms.
Import Forms.

Section FormSetSave.
Context `{Collaborators}.

(** A form takes part in validation and saving unless it is a blank extra
    row or is marked for deletion. *)
Definition marked_deleted (fs : FormSet) (form : Form) : bool :=
  can_delete (formset_class fs) && _should_delete_form form.

(** [BaseModelFormSet.is_valid] *)
Definition formset_is_valid (db : DB) (fs : FormSet) : bool :=
  is_bound fs
  && management_form_is_valid (management_form (data fs))
  && bool_decide (TOTAL_FORMS (management_form (data fs))
                  ≤ Z.of_nat (absolute_max (formset_class fs)))%Z
  && forallb (λ form, marked_deleted fs form || form_is_valid db form)
       (forms fs)
  && validate_unique (get_queryset fs)
       (omap (cleaned_pair db (formset_class fs))
          (filter (λ form, negb (skipped form || marked_deleted fs form))
             (forms fs))).

(** [BaseFormSet.deleted_forms], as indexes into [forms]. *)
Definition deleted_forms (db : DB) (fs : FormSet) : list nat :=
  if negb (formset_is_valid db fs) || negb (can_delete (formset_class fs))
  then []
  else
    omap id
      (imap
         (λ i form,
            if bool_decide (initial_form_count fs ≤ Z.of_nat i)%Z
               && negb (has_changed form)
            then None
            else if _should_delete_form form then Some i else None)
         (forms fs)).

(** The state [save] threads: the table being written with the sequence
    of its keys, and the two lists the formset exposes afterwards. *)
Record SaveState := {
  table : list Conflict;
  sequence : nat;
  saved_instances : list Conflict;
  deleted_objects : list Conflict;
}.

Definition delete_existing (obj : Conflict) (tbl : list Conflict) : list Conflict :=
  filter (λ c, pk c ≠ pk obj) tbl.

Definition save_existing (obj : Conflict) (tbl : list Conflict) : list Conflict :=
  (λ c, if bool_decide (pk c = pk obj) then obj else c) <$> tbl.

(** The key the database gives a new row: the next value of the table's
    sequence, whatever rows the table holds by then. *)
Definition next_pk (seq : nat) : nat := S seq.

Definition save_existing_step (db : DB) (fs : FormSet) (to_delete : list nat)
    (st : SaveState) (entry : nat * Form) : SaveState :=
  let '(i, form) := entry in
  match instance form with
  | None => st
  | Some obj =>
      if bool_decide (i ∈ to_delete) then
        {| table := delete_existing obj (table st);
           sequence := sequence st;
           saved_instances := saved_instances st;
           deleted_objects := deleted_objects st ++ [obj] |}
      else if has_changed form then
        let '(a, b) :=
          default (fk1 obj, fk2 obj) (cleaned_pair db (formset_class fs) form) in
        let obj' := {| pk := pk obj; fk1 := a; fk2 := b |} in
        {| table := save_existing obj' (table st);
           sequence := sequence st;
           saved_instances := saved_instances st ++ [obj'];
           deleted_objects := deleted_objects st |}
      else st
  end.

Definition save_existing_objects (db : DB) (fs : FormSet) (tbl : list Conflict)
    (seq : nat) : SaveState :=
  foldl (save_existing_step db fs (deleted_forms db fs))
    {| table := tbl; sequence := seq; saved_instances := [];
       deleted_objects := [] |}
    (imap pair (initial_forms fs)).

Definition save_new_step (db : DB) (fs : FormSet) (st : SaveState) (form : Form)
  : SaveState :=
  if negb (has_changed form) then st
  else if marked_deleted fs form then st
  else match cleaned_pair db (formset_class fs) form with
       | Some (a, b) =>
           let obj := {| pk := next_pk (sequence st); fk1 := a; fk2 := b |} in
           {| table := table st ++ [obj];
              sequence := next_pk (sequence st);
              saved_instances := saved_instances st ++ [obj];
              deleted_objects := deleted_objects st |}
       | None => st
       end.

Definition save_new_objects (db : DB) (fs : FormSet) (st : SaveState) : SaveState :=
  foldl (save_new_step db fs) st (extra_forms fs).

(** [BaseModelFormSet.save()]: existing rows first, then new ones; the
    saved instances are what it returns. *)
Definition save (db : DB) (fs : FormSet) (tbl : list Conflict) (seq : nat)
  : SaveState :=
  save_new_objects db fs (save_existing_objects db fs tbl seq).

End FormSetSave.

(* ===================================================================== *)
(** * The conflict formset views *)
(* ===================================================================== *)

Inductive ConflictView :=
  | AdjudicatorTeamConflictsView
  | AdjudicatorAdjudicatorConflictsView
  | AdjudicatorInstitutionConflictsView
  | TeamInstitutionConflictsView.

Definition view_permission (v : ConflictView) : Permission :=
  match v with
  | AdjudicatorTeamConflictsView => VIEW_ADJ_TEAM_CONFLICTS
  | AdjudicatorAdjudicatorConflictsView => VIEW_ADJ_ADJ_CONFLICTS
  | AdjudicatorInstitutionConflictsView => VIEW_ADJ_INST_CONFLICTS
  | TeamInstitutionConflictsView => VIEW_TEAM_INST_CONFLICTS
  end.

Definition edit_permission (v : ConflictView) : Permission :=
  match v with
  | AdjudicatorTeamConflictsView => EDIT_ADJ_TEAM_CONFLICTS
  | AdjudicatorAdjudicatorConflictsView => EDIT_ADJ_ADJ_CONFLICTS
  | AdjudicatorInstitutionConflictsView => EDIT_ADJ_INST_CONFLICTS
  | TeamInstitutionConflictsView => EDIT_TEAM_INST_CONFLICTS
  end.

Definition save_text (v : ConflictView) : string :=
  match v with
  | AdjudicatorTeamConflictsView => "Save Adjudicator-Team Conflicts"
  | AdjudicatorAdjudicatorConflictsView => "Save Adjudicator-Adjudicator Conflicts"
  | AdjudicatorInstitutionConflictsView => "Save Adjudicator-Institution Conflicts"
  | TeamInstitutionConflictsView => "Save Team-Institution Conflicts"
  end.

Definition same_view (v : ConflictView) : string :=
  match v with
  | AdjudicatorTeamConflictsView => "adjallocation-conflicts-adj-team"
  | AdjudicatorAdjudicatorConflictsView => "adjallocation-conflicts-adj-adj"
  | AdjudicatorInstitutionConflictsView => "adjallocation-conflicts-adj-inst"
  | TeamInstitutionConflictsView => "adjallocation-conflicts-team-inst"
  end.

(** The class-level [formset_factory_kwargs]: a copy of the base class's
    empty dict, updated with the two entries of the subclass. *)
Definition formset_factory_kwargs (v : ConflictView) : gmap string KwArg :=
  match v with
  | AdjudicatorTeamConflictsView =>
      <["field_classes" := KFieldClasses
          (<["team" := TeamChoiceField]>
             (<["adjudicator" := DedupModelChoiceField]> ∅))]>
        (<["fields" := KFields ["adjudicator"; "team"]]> ∅)
  | AdjudicatorAdjudicatorConflictsView =>
      <["field_classes" := KFieldClasses
          (<["adjudicator2" := DedupModelChoiceField]>
             (<["adjudicator1" := DedupModelChoiceField]> ∅))]>
        (<["fields" := KFields ["adjudicator1"; "adjudicator2"]]> ∅)
  | AdjudicatorInstitutionConflictsView =>
      <["field_classes" := KFieldClasses
          (<["institution" := DedupModelChoiceField]>
             (<["adjudicator" := DedupModelChoiceField]> ∅))]>
        (<["fields" := KFields ["adjudicator"; "institution"]]> ∅)
  | TeamInstitutionConflictsView =>
      <["field_classes" := KFieldClasses
          (<["institution" := DedupModelChoiceField]>
             (<["team" := TeamChoiceField]> ∅))]>
        (<["fields" := KFields ["team"; "institution"]]> ∅)
  end.

(** [formset_model.objects]: the table behind each view. *)
Definition formset_model (v : ConflictView) (db : DB) : list Conflict :=
  match v with
  | AdjudicatorTeamConflictsView => adjudicatorteamconflicts db
  | AdjudicatorAdjudicatorConflictsView => adjudicatoradjudicatorconflicts db
  | AdjudicatorInstitutionConflictsView => adjudicatorinstitutionconflicts db
  | TeamInstitutionConflictsView => teaminstitutionconflicts db
  end.

(** The sequence behind the keys of each view's table. *)
Definition pk_sequence (v : ConflictView) (db : DB) : nat :=
  match v with
  | AdjudicatorTeamConflictsView => adjudicatorteamconflict_id_seq db
  | AdjudicatorAdjudicatorConflictsView =>
      adjudicatoradjudicatorconflict_id_seq db
  | AdjudicatorInstitutionConflictsView =>
      adjudicatorinstitutionconflict_id_seq db
  | TeamInstitutionConflictsView => teaminstitutionconflict_id_seq db
  end.

Definition write_formset_model (v : ConflictView) (rows : list Conflict)
    (seq : nat) (db : DB) : DB :=
  let table_of (w : ConflictView) (own : bool) :=
    if own then rows else formset_model w db in
  let seq_of (w : ConflictView) (own : bool) :=
    if own then seq else pk_sequence w db in
  let '(at_, aa, ai, ti) :=
    match v with
    | AdjudicatorTeamConflictsView => (true, false, false, false)
    | AdjudicatorAdjudicatorConflictsView => (false, true, false, false)
    | AdjudicatorInstitutionConflictsView => (false, false, true, false)
    | TeamInstitutionConflictsView => (false, false, false, true)
    end in
  {| adjudicators := adjudicators db; teams := teams db;
     institutions := institutions db;
     adjudicatorteamconflicts := table_of AdjudicatorTeamConflictsView at_;
     adjudicatoradjudicatorconflicts :=
       table_of AdjudicatorAdjudicatorConflictsView aa;
     adjudicatorinstitutionconflicts :=
       table_of AdjudicatorInstitutionConflictsView ai;
     teaminstitutionconflicts := table_of TeamInstitutionConflictsView ti;
     adjudicatorteamconflict_id_seq := seq_of AdjudicatorTeamConflictsView at_;
     adjudicatoradjudicatorconflict_id_seq :=
       seq_of AdjudicatorAdjudicatorConflictsView aa;
     adjudicatorinstitutionconflict_id_seq :=
       seq_of AdjudicatorInstitutionConflictsView ai;
     teaminstitutionconflict_id_seq := seq_of TeamInstitutionConflictsView ti;
     regions := regions db; debates := debates db;
     preformedpanels := preformedpanels db; preferences := preferences db |}.

(** The lookups the views spell with double underscores. *)
Definition adjudicator__tournament (db : DB) (c : Conflict) : option Tournament :=
  adj_tournament <$> get_adjudicator db (fk1 c).
Definition adjudicator__name (db : DB) (c : Conflict) : string :=
  from_option adj_name "" (get_adjudicator db (fk1 c)).
Definition adjudicator1__tournament := adjudicator__tournament.
Definition adjudicator1__name := adjudicator__name.
Definition team__tournament (db : DB) (c : Conflict) : option Tournament :=
  team_tournament <$> get_team db (fk1 c).
Definition team__short_name (db : DB) (c : Conflict) : string :=
  from_option short_name "" (get_team db (fk1 c)).

(** [get_formset_queryset] of the four subclasses. *)
Definition get_formset_queryset (v : ConflictView) (t : Tournament) (db : DB)
  : list Conflict :=
  match v with
  | AdjudicatorTeamConflictsView =>
      order_by (adjudicator__name db)
        (filter (λ c, adjudicator__tournament db c = Some t)
           (formset_model v db))
  | AdjudicatorAdjudicatorConflictsView =>
      order_by (adjudicator1__name db)
        (filter (λ c, adjudicator1__tournament db c = Some t)
           (formset_model v db))
  | AdjudicatorInstitutionConflictsView =>
      order_by (adjudicator__name db)
        (filter (λ c, adjudicator__tournament db c = Some t)
           (formset_model v db))
  | TeamInstitutionConflictsView =>
      order_by (team__short_name db)
        (filter (λ c, team__tournament db c = Some t)
           (formset_model v db))
  end.

(** ** Flash messages *)

Inductive Level := SUCCESS.

Record Message := {
  level : Level;
  message : string;
}.

(** [messages.success(request, text)] *)
Definition messages_success (msgs : list Message) (text : string) : list Message :=
  msgs ++ [{| level := SUCCESS; message := text |}].

(** [gettext] and [ngettext] with no translation catalogue active: the
    source strings, singular for a count of one. *)
Definition gettext (s : string) : string := s.
Definition ngettext (singular plural : string) (n : nat) : string :=
  if bool_decide (n = 1) then singular else plural.

(** [template % {'count': n}]: every [%(count)d] becomes the decimal
    numeral of [n]. *)
Fixpoint percent_go (skip : nat) (count : string) (s : string) : string :=
  match s with
  | EmptyString => EmptyString
  | String c s' =>
      match skip with
      | S k => percent_go k count s'
      | O =>
          if String.prefix "%(count)d" s
          then count +:+ percent_go 8 count s'
          else String c (percent_go 0 count s')
      end
  end.

Definition percent_count (template : string) (n : nat) : string :=
  percent_go 0 (pretty n) template.

Definition int (b : bool) : nat := if b then 1 else 0.

(** [add_message] of the four subclasses. *)
Definition add_message (v : ConflictView) (nsaved ndeleted : nat)
    (msgs : list Message) : list Message :=
  match v with
  | AdjudicatorTeamConflictsView =>
      let msgs :=
        if bool_decide (0 < nsaved) then
          messages_success msgs
            (percent_count
               (ngettext "Saved %(count)d adjudicator-team conflict."
                  "Saved %(count)d adjudicator-team conflicts." nsaved)
               nsaved)
        else msgs in
      let msgs :=
        if bool_decide (0 < ndeleted) then
          messages_success msgs
            (percent_count
               (ngettext "Deleted %(count)d adjudicator-team conflict."
                  "Deleted %(count)d adjudicator-team conflicts." ndeleted)
               ndeleted)
        else msgs in
      if bool_decide (nsaved = 0) && bool_decide (ndeleted = 0) then
        messages_success msgs
          (gettext "No changes were made to adjudicator-team conflicts.")
      else msgs
  | AdjudicatorAdjudicatorConflictsView =>
      let msgs :=
        if bool_decide (0 < nsaved) then
          messages_success msgs
            (percent_count
               (ngettext "Saved %(count)d adjudicator-adjudicator conflict."
                  "Saved %(count)d adjudicator-adjudicator conflicts." nsaved)
               nsaved)
        else msgs in
      let msgs :=
        if bool_decide (0 < ndeleted) then
          messages_success msgs
            (percent_count
               (ngettext "Deleted %(count)d adjudicator-adjudicator conflict."
                  "Deleted %(count)d adjudicator-adjudicator conflicts." ndeleted)
               ndeleted)
        else msgs in
      if bool_decide (nsaved = 0) && bool_decide (ndeleted = 0) then
        messages_success msgs
          (gettext "No changes were made to adjudicator-adjudicator conflicts.")
      else msgs
  | AdjudicatorInstitutionConflictsView =>
      let msgs :=
        if bool_decide (0 < nsaved) then
          messages_success msgs
            (percent_count
               (ngettext "Saved %(count)d adjudicator-institution conflict."
                  "Saved %(count)d adjudicator-institution conflicts." nsaved)
               nsaved)
        else msgs in
      let msgs :=
        if bool_decide (0 < ndeleted) then
          messages_success msgs
            (percent_count
               (ngettext "Deleted %(count)d adjudicator-institution conflict."
                  "Deleted %(count)d adjudicator-institution conflicts." ndeleted)
               ndeleted)
        else msgs in
      if bool_decide (nsaved = 0) && bool_decide (ndeleted = 0) then
        messages_success msgs
          (gettext "No changes were made to adjudicator-institution conflicts.")
      else msgs
  | TeamInstitutionConflictsView =>
      let msgs :=
        if bool_decide (0 < nsaved) then
          messages_success msgs
            (percent_count
               (ngettext "Saved %(count)d team-institution conflict."
                  "Saved %(count)d team-institution conflicts." nsaved)
               nsaved)
        else msgs in
      let msgs :=
        if bool_decide (0 < ndeleted) then
          messages_success msgs
            (percent_count
               (ngettext "Deleted %(count)d team-institution conflict."
                  "Deleted %(count)d team-institution conflicts." ndeleted)
               ndeleted)
        else msgs in
      if bool_decide (nsaved = 0) && bool_decide (ndeleted = 0) then
        messages_success msgs
          (gettext "No changes were made to team-institution conflicts.")
      else msgs
  end.

(** ** Requests, responses and the view methods *)

Inductive HttpResponse :=
  | HttpResponseRedirect (url : string)
  | TemplateResponse (template_name : string) (ctx_save_text : string)
      (ctx_can_edit : bool) (ctx_formset : FormSet).

(** What handling a request leaves behind. *)
Record Outcome := {
  response : HttpResponse;
  db_after : DB;
  messages_after : list Message;
  instances : list Conflict;
}.

Section Views.
Context `{Collaborators}.

(** Modelled from the spec: [utils.misc.redirect_tournament] is declared
    outside the view module; it redirects to the named view's URL for the
    tournament. *)
Definition redirect_tournament (name : string) (t : Tournament) : HttpResponse :=
  HttpResponseRedirect (reverse_tournament name t).

(** Modelled from the spec: [get_edit_permission] comes from the
    permission mixin, declared outside the view module; the capability
    looked up is the view's [edit_permission]. *)
Definition get_edit_permission (v : ConflictView) : Permission :=
  edit_permission v.

(** Modelled from the spec: [utils.views.ModelFormSetView], the parent of
    the conflict views, is declared outside the view module.  Following
    sections 4.3 and 6 of the specification it builds the formset class
    from the view's factory keyword arguments, builds the formset over the
    view's editable row set (bound to the submitted data on POST), and on a
    valid submission persists the rows, keeps the saved instances and
    redirects to the view's success URL; an invalid submission re-renders
    the form. *)
Definition ModelFormSetView_get_formset_factory_kwargs (v : ConflictView)
  : gmap string KwArg :=
  formset_factory_kwargs v.

(** [BaseAdjudicatorConflictsView.get_formset_factory_kwargs] *)
Definition get_formset_factory_kwargs (v : ConflictView) (req : Request)
    (t : Tournament) : gmap string KwArg :=
  let can_edit := has_permission (user req) (get_edit_permission v) t in
  let kwargs := ModelFormSetView_get_formset_factory_kwargs v in
  let kwargs := <["extra" := KInt (10 * int can_edit)]> kwargs in
  let kwargs := <["can_delete" := KBool can_edit]> kwargs in
  kwargs.

(** Modelled from the spec: [ModelFormSetView.get_formset] (see above). *)
Definition ModelFormSetView_get_formset (v : ConflictView) (req : Request)
    (t : Tournament) (db : DB) : FormSet :=
  let formset_class := modelformset_factory (get_formset_factory_kwargs v req t) in
  match method req with
  | POST =>
      build_formset formset_class true (POST_data req)
        (get_formset_queryset v t db)
  | GET => build_formset formset_class false ∅ (get_formset_queryset v t db)
  end.

(** [BaseAdjudicatorConflictsView.get_formset] *)
Definition BaseAdjudicatorConflictsView_get_formset (v : ConflictView)
    (req : Request) (t : Tournament) (db : DB) : FormSet :=
  let formset := ModelFormSetView_get_formset v req t db in
  if negb (has_permission (user req) (get_edit_permission v) t) then
    set_forms
      ((λ form, set_fields (set_disabled true <$> fields form) form)
         <$> forms formset)
      formset
  else formset.

(** [form.fields[name].attr = value]; [None] is the [KeyError] of a form
    without that field. *)
Definition setattr_field (name : string) (upd : Field → Field) (form : Form)
  : option Form :=
  f ← fields form !! name;
  Some (set_fields (<[name := upd f]> (fields form)) form).

(** [get_formset] of the four subclasses. *)
Definition get_formset (v : ConflictView) (req : Request) (t : Tournament)
    (db : DB) : option FormSet :=
  let formset := BaseAdjudicatorConflictsView_get_formset v req t db in
  match v with
  | AdjudicatorTeamConflictsView =>
      let all_adjs :=
        mk_queryset (λ db, AdjudicatorObj <$> order_by adj_name (adjudicator_set t db)) in
      let use_code_names := use_team_code_names t true (user req) in
      let all_teams :=
        mk_queryset
          (λ db, TeamObj <$>
             order_by (if use_code_names then code_name else short_name)
               (team_set t db)) in
      forms' ← mapM
        (λ form,
           form ← setattr_field "adjudicator" (_set_queryset all_adjs) form;
           form ← setattr_field "team" (_set_queryset all_teams) form;
           setattr_field "team" (set_use_code_names use_code_names) form)
        (forms formset);
      Some (set_forms forms' formset)
  | AdjudicatorAdjudicatorConflictsView =>
      let all_adjs :=
        mk_queryset (λ db, AdjudicatorObj <$> order_by adj_name (adjudicator_set t db)) in
      forms' ← mapM
        (λ form,
           form ← setattr_field "adjudicator1" (_set_queryset all_adjs) form;
           setattr_field "adjudicator2" (_set_queryset all_adjs) form)
        (forms formset);
      Some (set_forms forms' formset)
  | AdjudicatorInstitutionConflictsView =>
      let all_adjs :=
        mk_queryset (λ db, AdjudicatorObj <$> order_by adj_name (adjudicator_set t db)) in
      let insts := mk_queryset (λ db, InstitutionObj <$> institutions db) in
      forms' ← mapM
        (λ form,
           form ← setattr_field "adjudicator" (_set_queryset all_adjs) form;
           setattr_field "institution" (_set_queryset insts) form)
        (forms formset);
      Some (set_forms forms' formset)
  | TeamInstitutionConflictsView =>
      let use_code_names := use_team_code_names t true (user req) in
      let all_teams :=
        mk_queryset
          (λ db, TeamObj <$>
             order_by (if use_code_names then code_name else short_name)
               (team_set t db)) in
      let all_teams :=
        mk_queryset (λ db, TeamObj <$> order_by short_name (team_set t db)) in
      let insts := mk_queryset (λ db, InstitutionObj <$> institutions db) in
      forms' ← mapM
        (λ form,
           form ← setattr_field "team" (_set_queryset all_teams) form;
           form ← setattr_field "team" (set_use_code_names use_code_names) form;
           setattr_field "institution" (_set_queryset insts) form)
        (forms formset);
      Some (set_forms forms' formset)
  end.

(** [BaseAdjudicatorConflictsView.get_success_url] *)
Definition get_success_url (t : Tournament) : string :=
  reverse_tournament "importer-simple-index" t.

(** Modelled from the spec: [ModelFormSetView.formset_valid] (see above):
    the rows are saved into the view's table and the response redirects to
    the success URL. *)
Definition ModelFormSetView_formset_valid (v : ConflictView) (t : Tournament)
    (db : DB) (formset : FormSet) : HttpResponse * SaveState :=
  let st := save db formset (formset_model v db) (pk_sequence v db) in
  (HttpResponseRedirect (get_success_url t), st).

(** [BaseAdjudicatorConflictsView.formset_valid] *)
Definition formset_valid (v : ConflictView) (req : Request) (t : Tournament)
    (db : DB) (msgs : list Message) (formset : FormSet) : Outcome :=
  let '(result, st) := ModelFormSetView_formset_valid v t db formset in
  let nsaved := length (saved_instances st) in
  let ndeleted := length (deleted_objects st) in
  let msgs := add_message v nsaved ndeleted msgs in
  let db' := write_formset_model v (table st) (sequence st) db in
  if bool_decide (is_Some (POST_data req !! "add_more")) then
    {| response := redirect_tournament (same_view v) t; db_after := db';
       messages_after := msgs; instances := saved_instances st |}
  else
    {| response := result; db_after := db'; messages_after := msgs;
       instances := saved_instances st |}.

(** Rendering the page: [get_context_data] adds [save_text] and
    [can_edit] to the template context. *)
Definition render (v : ConflictView) (req : Request) (t : Tournament)
    (db : DB) (msgs : list Message) (formset : FormSet) : Outcome :=
  {| response :=
       TemplateResponse "edit_conflicts.html" (save_text v)
         (has_permission (user req) (get_edit_permission v) t) formset;
     db_after := db; messages_after := msgs; instances := [] |}.

(** Modelled from the spec: the request entry points of
    [ModelFormSetView].  [None] is an exception escaping the view. *)
Definition post (v : ConflictView) (req : Request) (t : Tournament) (db : DB)
    (msgs : list Message) : option Outcome :=
  formset ← get_formset v req t db;
  if formset_is_valid db formset
  then Some (formset_valid v req t db msgs formset)
  else Some (render v req t db msgs formset).

Definition get (v : ConflictView) (req : Request) (t : Tournament) (db : DB)
    (msgs : list Message) : option Outcome :=
  formset ← get_formset v req t db;
  Some (render v req t db msgs formset).

Definition dispatch (v : ConflictView) (req : Request) (t : Tournament)
    (db : DB) (msgs : list Message) : option Outcome :=
  match method req with
  | GET => get v req t db msgs
  | POST => post v req t db msgs
  end.

End Views.

(* ===================================================================== *)
(** * The drag-and-drop allocation views *)
(* ===================================================================== *)

Module Allocation.

(** The JSON-like values the page context is made of. *)
Inductive JSON :=
  | JNull
  | JBool (b : bool)
  | JNum (n : nat)
  | JStr (s : string)
  | JList (l : list JSON)
  | JObj (o : list (string * JSON)).

(** Request handling as a computation over the persisted state: it may
    read it, write it, or raise ([None]). *)
Definition M (A : Type) : Type := DB → option A * DB.

Definition ret {A} (x : A) : M A := λ db, (Some x, db).

Definition bind {A B} (m : M A) (k : A → M B) : M B :=
  λ db, match m db with
        | (Some x, db') => k x db'
        | (None, db') => (None, db')
        end.

Definition raise {A} : M A := λ db, (None, db).

(** An ORM read. *)
Definition select {A} (f : DB → A) : M A := λ db, (Some (f db), db).

Definition lift {A} (o : option A) : M A :=
  match o with Some x => ret x | None => raise end.

Declare Scope m_scope.
Delimit Scope m_scope with M.
Notation "x <- m ;; k" := (bind m (λ x, k))
  (at level 100, m at next level, right associativity) : m_scope.
Notation "m ;;; k" := (bind m (λ _, k))
  (at level 100, right associativity) : m_scope.
Open Scope m_scope.

(** [m] leaves the persisted state as it found it. *)
Definition read_only {A} (m : M A) : Prop := ∀ db, (m db).2 = db.

(** Python dicts of the context, in insertion order. *)
Fixpoint dict_set (k : string) (v : JSON) (o : list (string * JSON))
  : list (string * JSON) :=
  match o with
  | [] => [(k, v)]
  | (k', v') :: o' =>
      if bool_decide (k' = k) then (k, v) :: o' else (k', v') :: dict_set k v o'
  end.

Fixpoint dict_get (k : string) (o : list (string * JSON)) : option JSON :=
  match o with
  | [] => None
  | (k', v') :: o' => if bool_decide (k' = k) then Some v' else dict_get k o'
  end.

(** [info[k1][k2] = v]; a missing [k1] is a [KeyError]. *)
Definition dict_set2 (k1 k2 : string) (v : JSON) (info : list (string * JSON))
  : option (list (string * JSON)) :=
  match dict_get k1 info with
  | Some (JObj inner) => Some (dict_set k1 (JObj (dict_set k2 v inner)) info)
  | _ => None
  end.

Inductive AllocationView :=
  | EditDebateAdjudicatorsView
  | EditPanelAdjudicatorsView.

Definition template_name (v : AllocationView) : string :=
  match v with
  | EditDebateAdjudicatorsView => "edit_debate_adjudicators.html"
  | EditPanelAdjudicatorsView => "edit_panel_adjudicators.html"
  end.

(** The collaborators of the allocation views, all declared outside the
    view module: the mixin they extend, tournament preferences, the
    conflict and history tables, the availability and feedback utilities
    and the serializers. *)
Class AllocationCollaborators := {
  (** [DebateDragAndDropMixin.get_extra_info] *)
  mixin_get_extra_info : Tournament → nat → M (list (string * JSON));
  (** [tournament.pref(name)] *)
  pref : Tournament → string → M JSON;
  (** [tournament.preferences[key]] *)
  preferences_getitem : Tournament → string → M JSON;
  (** [utils.misc.ranks_dictionary] *)
  ranks_dictionary : Tournament → JSON → JSON → M JSON;
  (** [ConflictsInfo(teams, adjudicators).serialized_by_participant()] *)
  conflicts_serialized_by_participant :
    list Team → list Adjudicator → M (JSON * JSON);
  (** [HistoryInfo(round).serialized_by_participant()] *)
  history_serialized_by_participant : nat → M (JSON * JSON);
  (** [annotate_availability(adjs, round)] *)
  annotate_availability : list Adjudicator → nat → M (list Adjudicator);
  (** [populate_feedback_scores(adjs)] *)
  populate_feedback_scores : list Adjudicator → M unit;
  (** [tournament.current_round.feedback_weight] *)
  current_round_feedback_weight : Tournament → M JSON;
  (** [EditPanelOrDebateAdjSerializer(adjs, many=True, context=...).data] *)
  adj_serializer_data : list Adjudicator → JSON → M JSON;
  (** [self.json_render(data)] *)
  json_render : JSON → string;
  (** [DebateDragAndDropMixin.get_draw_or_panels_objects] (debate view) *)
  mixin_get_draw_or_panels_objects : nat → M (list Debate);
  (** [EditDebateAdjsDebateSerializer(debates, many=True, context=...)] *)
  debate_serializer : list Debate → Tournament → nat → M JSON;
  (** [EditPanelAdjsPanelSerializer(panels, many=True, context=...)] *)
  panel_serializer : list PreformedPanel → nat → M JSON;
  (** the URL reverser, as for the conflict views *)
  reverse_url : string → Tournament → string;
}.

(** What the specification expects of every one of them (section 4.1: no
    side effects beyond rendering): they read.  Nothing in this file
    establishes it; it is the condition under which the views are shown to
    add no write of their own. *)
Record collaborators_read_only `{AllocationCollaborators} : Prop := {
  mixin_get_extra_info_ro : ∀ t r, read_only (mixin_get_extra_info t r);
  pref_ro : ∀ t k, read_only (pref t k);
  preferences_getitem_ro : ∀ t k, read_only (preferences_getitem t k);
  ranks_dictionary_ro : ∀ t a b, read_only (ranks_dictionary t a b);
  conflicts_ro : ∀ ts adjs,
    read_only (conflicts_serialized_by_participant ts adjs);
  history_ro : ∀ r, read_only (history_serialized_by_participant r);
  annotate_availability_ro : ∀ adjs r, read_only (annotate_availability adjs r);
  populate_feedback_scores_ro : ∀ adjs, read_only (populate_feedback_scores adjs);
  feedback_weight_ro : ∀ t, read_only (current_round_feedback_weight t);
  adj_serializer_ro : ∀ adjs w, read_only (adj_serializer_data adjs w);
  mixin_objects_ro : ∀ r, read_only (mixin_get_draw_or_panels_objects r);
  debate_serializer_ro : ∀ ds t r, read_only (debate_serializer ds t r);
  panel_serializer_ro : ∀ ps r, read_only (panel_serializer ps r);
}.

Section AllocationViews.
Context `{AllocationCollaborators}.

(** The loop over [allocation_preferences]. *)
Fixpoint read_allocation_settings (t : Tournament) (keys : list string)
    (settings : list (string * JSON)) : M (list (string * JSON)) :=
  match keys with
  | [] => ret settings
  | key :: keys' =>
      v <- preferences_getitem t key;;
      read_allocation_settings t keys' (dict_set key v settings)
  end.

Definition allocation_preferences : list string :=
  [ "draw_rules__adj_min_voting_score";
    "draw_rules__adj_conflict_penalty";
    "draw_rules__adj_history_penalty";
    "draw_rules__preformed_panel_mismatch_penalty";
    "draw_rules__no_trainee_position";
    "draw_rules__no_panellist_position" ].

Definition highlight (code name : string) : JSON :=
  JObj [("pk", JStr code); ("fields", JObj [("name", JStr name)])].

(** [get_adjudicator_conflicts] *)
Definition get_adjudicator_conflicts (t : Tournament) : M JSON :=
  ts <- select (team_set t);;
  adjs <- select (adjudicator_set t);;
  p <- conflicts_serialized_by_participant ts adjs;;
  ret (JObj [("teams", p.1); ("adjudicators", p.2)]).

(** [get_history_conflicts] *)
Definition get_history_conflicts (round : nat) : M JSON :=
  p <- history_serialized_by_participant round;;
  ret (JObj [("teams", p.1); ("adjudicators", p.2)]).

(** [BaseEditDebateOrPanelAdjudicatorsView.get_extra_info] *)
Definition Base_get_extra_info (t : Tournament) (round : nat)
  : M (list (string * JSON)) :=
  info <- mixin_get_extra_info t round;;
  info <- lift (dict_set2 "highlights" "gender"
            (JList [ highlight "m" (gettext "Male");
                     highlight "f" (gettext "Female");
                     highlight "o" (gettext "Other");
                     highlight "u" (gettext "Unknown") ]) info);;
  adj_min <- pref t "adj_min_score";;
  info <- ret (dict_set "adjMinScore" adj_min info);;
  adj_max <- pref t "adj_max_score";;
  info <- ret (dict_set "adjMaxScore" adj_max info);;
  ranks <- ranks_dictionary t adj_min adj_max;;
  info <- lift (dict_set2 "highlights" "rank" ranks info);;
  rs <- select regions;;
  let regions :=
    (λ r, JObj [("pk", JNum (region_id r));
                ("fields", JObj [("name", JStr (region_name r))])]) <$> rs in
  info <- lift (dict_set2 "highlights" "region" (JList regions) info);;
  settings <- read_allocation_settings t allocation_preferences [];;
  info <- ret (dict_set "allocationSettings" (JObj settings) info);;
  clashes <- get_adjudicator_conflicts t;;
  info <- ret (dict_set "clashes" clashes info);;
  histories <- get_history_conflicts round;;
  info <- ret (dict_set "histories" histories info);;
  has_panels <- select (λ db,
    bool_decide (filter (λ p, panel_round p = round) (preformedpanels db) ≠ []));;
  ret (dict_set "hasPreformedPanels" (JBool has_panels) info).

(** [get_extra_info] of the two subclasses. *)
Definition get_extra_info (v : AllocationView) (t : Tournament) (round : nat)
  : M (list (string * JSON)) :=
  match v with
  | EditDebateAdjudicatorsView =>
      info <- Base_get_extra_info t round;;
      ret info
  | EditPanelAdjudicatorsView =>
      info <- Base_get_extra_info t round;;
      info <- ret (dict_set "backUrl"
                (JStr (reverse_url "panel-adjudicators-index" t)) info);;
      ret (dict_set "backLabel" (JStr (gettext "Return to Panels Overview")) info)
  end.

(** [get_serialised_allocatable_items] *)
Definition get_serialised_allocatable_items (t : Tournament) (round : nat)
  : M string :=
  adjs <- select (adjudicator_set t);;
  adjs <- annotate_availability adjs round;;
  populate_feedback_scores adjs;;;
  weight <- current_round_feedback_weight t;;
  data <- adj_serializer_data adjs weight;;
  ret (json_render data).

(** [EditPanelAdjudicatorsView.get_draw_or_panels_objects]: the panels of
    the round, their adjudicators prefetched. *)
Definition get_draw_or_panels_objects (round : nat) : M (list PreformedPanel) :=
  select (λ db, filter (λ p, panel_round p = round) (preformedpanels db)).

(** [debates_or_panels_factory] of the two subclasses. *)
Definition EditDebateAdjudicatorsView_debates_or_panels_factory
    (t : Tournament) (round : nat) (debates : list Debate) : M JSON :=
  debate_serializer debates t round.

Definition EditPanelAdjudicatorsView_debates_or_panels_factory
    (round : nat) (panels : list PreformedPanel) : M JSON :=
  panel_serializer panels round.

(** The objects of the round, serialised: the debate view keeps the
    mixin's way of fetching them, the panel view overrides it. *)
Definition serialised_debates_or_panels (v : AllocationView) (t : Tournament)
    (round : nat) : M JSON :=
  match v with
  | EditDebateAdjudicatorsView =>
      debates <- mixin_get_draw_or_panels_objects round;;
      EditDebateAdjudicatorsView_debates_or_panels_factory t round debates
  | EditPanelAdjudicatorsView =>
      panels <- get_draw_or_panels_objects round;;
      EditPanelAdjudicatorsView_debates_or_panels_factory round panels
  end.

(** Modelled from the spec: the context assembly of
    [DebateDragAndDropMixin], which is declared outside the view module.
    Section 4.1 of the specification lists what the page embeds: the
    allocatable adjudicators, the debates or panels of the round, and the
    extra information (clashes, histories, thresholds, highlights). *)
Definition mixin_get_context_data (v : AllocationView) (t : Tournament)
    (round : nat) (kwargs : list (string * JSON)) : M (list (string * JSON)) :=
  info <- get_extra_info v t round;;
  items <- get_serialised_allocatable_items t round;;
  objs <- serialised_debates_or_panels v t round;;
  ret (dict_set "vueData"
         (JObj [("extra", JObj info); ("allocatableItems", JStr items);
                ("debatesOrPanels", objs)]) kwargs).

(** [BaseEditDebateOrPanelAdjudicatorsView.get_context_data] *)
Definition get_context_data (v : AllocationView) (t : Tournament)
    (round : nat) (kwargs : list (string * JSON)) : M (list (string * JSON)) :=
  let kwargs := dict_set "vueDebatesOrPanelAdjudicators" (JStr "null") kwargs in
  mixin_get_context_data v t round kwargs.

(** A GET request: the template rendered with the context. *)
Definition handle_get (v : AllocationView) (t : Tournament) (round : nat)
  : M (string * list (string * JSON)) :=
  ctx <- get_context_data v t round [];;
  ret (template_name v, ctx).

End AllocationViews.
Close Scope m_scope.

End Allocation.

(* ===================================================================== *)
(** * Vocabulary of the specification *)
(* ===================================================================== *)

(** The foreign-key path that scopes a view's rows to a tournament, and the
    column its rows are ordered by, as the specification names them. *)
Definition tournament_path (v : ConflictView) (db : DB) (c : Conflict)
  : option Tournament :=
  match v with
  | TeamInstitutionConflictsView => team_tournament <$> get_team db (fk1 c)
  | _ => adj_tournament <$> get_adjudicator db (fk1 c)
  end.

Definition ordering_column (v : ConflictView) (db : DB) (c : Conflict) : string :=
  match v with
  | TeamInstitutionConflictsView => from_option short_name "" (get_team db (fk1 c))
  | _ => from_option adj_name "" (get_adjudicator db (fk1 c))
  end.

(** The wording of the flash messages: the relation's name, and the
    singular for a count of one. *)
Definition relation_name (v : ConflictView) : string :=
  match v with
  | AdjudicatorTeamConflictsView => "adjudicator-team"
  | AdjudicatorAdjudicatorConflictsView => "adjudicator-adjudicator"
  | AdjudicatorInstitutionConflictsView => "adjudicator-institution"
  | TeamInstitutionConflictsView => "team-institution"
  end.

Definition count_message (verb : string) (v : ConflictView) (n : nat) : Message :=
  {| level := SUCCESS;
     message := verb +:+ " " +:+ pretty n +:+ " " +:+ relation_name v
                +:+ (if bool_decide (n = 1) then " conflict." else " conflicts.") |}.

Definition saved_message := count_message "Saved".
Definition deleted_message := count_message "Deleted".

Definition no_changes_message (v : ConflictView) : Message :=
  {| level := SUCCESS;
     message := "No changes were made to " +:+ relation_name v +:+ " conflicts." |}.

Definition expected_messages (v : ConflictView) (nsaved ndeleted : nat)
  : list Message :=
  (if bool_decide (0 < nsaved) then [saved_message v nsaved] else [])
  ++ (if bool_decide (0 < ndeleted) then [deleted_message v ndeleted] else [])
  ++ (if bool_decide (nsaved = 0 ∧ ndeleted = 0) then [no_changes_message v]
      else []).

(** The rows a field's choices are drawn from: the cache if the queryset
    has been evaluated, the query result otherwise. *)
Definition backing_rows (db : DB) (f : Field) : list Obj :=
  (fetch_all db (queryset f)).2.

(** What a completed iteration over the options of [f] looks like when the
    field draws [rows]: the blank option once and first when [empty_label]
    is set, never otherwise, then one choice per row. *)
Definition well_formed_options `{Collaborators} (f : Field) (rows : list Obj)
    (out : list Choice) : Prop :=
  match empty_label f with
  | Some l =>
      ∃ items, out = (EmptyValue, l) :: items
        ∧ length (filter (λ c, is_blank c = true) out) = 1
        ∧ Forall2 (λ obj c, choice f obj = Some c) rows items
  | None =>
      filter (λ c, is_blank c = true) out = []
      ∧ Forall2 (λ obj c, choice f obj = Some c) rows out
  end.

(** The two model fields of each view's forms, from its [fields] tuple. *)
Definition view_fields (v : ConflictView) : string * string :=
  match v with
  | AdjudicatorTeamConflictsView => ("adjudicator", "team")
  | AdjudicatorAdjudicatorConflictsView => ("adjudicator1", "adjudicator2")
  | AdjudicatorInstitutionConflictsView => ("adjudicator", "institution")
  | TeamInstitutionConflictsView => ("team", "institution")
  end.

Definition view_field_classes (v : ConflictView) : FieldClass * FieldClass :=
  match v with
  | AdjudicatorTeamConflictsView => (DedupModelChoiceField, TeamChoiceField)
  | AdjudicatorAdjudicatorConflictsView =>
      (DedupModelChoiceField, DedupModelChoiceField)
  | AdjudicatorInstitutionConflictsView =>
      (DedupModelChoiceField, DedupModelChoiceField)
  | TeamInstitutionConflictsView => (TeamChoiceField, DedupModelChoiceField)
  end.

(** A field touched up in place: what validation and change detection look
    at is as before. *)
Definition same_flags (f f' : Field) : Prop :=
  disabled f' = disabled f ∧ field_class f' = field_class f
  ∧ required f' = required f ∧ empty_label f' = empty_label f.

(** A form whose fields were touched up in place. *)
Definition retouched (form form' : Form) : Prop :=
  prefix form' = prefix form
  ∧ form_is_bound form' = form_is_bound form
  ∧ form_data form' = form_data form
  ∧ instance form' = instance form
  ∧ initial form' = initial form
  ∧ empty_permitted form' = empty_permitted form
  ∧ ∀ name, option_Forall2 same_flags (fields form !! name) (fields form' !! name).

(** The choice sets the views hand to their fields. *)
Definition tournament_adjudicators (t : Tournament) : QuerySet :=
  mk_queryset (λ db, AdjudicatorObj <$> order_by adj_name (adjudicator_set t db)).

Definition tournament_teams (key : Team → string) (t : Tournament) : QuerySet :=
  mk_queryset (λ db, TeamObj <$> order_by key (team_set t db)).

Definition all_institutions : QuerySet :=
  mk_queryset (λ db, InstitutionObj <$> institutions db).

Definition assigned_choices `{Collaborators} (v : ConflictView) (req : Request)
    (t : Tournament) : QuerySet * QuerySet :=
  match v with
  | AdjudicatorTeamConflictsView =>
      (tournament_adjudicators t,
       tournament_teams
         (if use_team_code_names t true (user req) then code_name
          else short_name) t)
  | AdjudicatorAdjudicatorConflictsView =>
      (tournament_adjudicators t, tournament_adjudicators t)
  | AdjudicatorInstitutionConflictsView =>
      (tournament_adjudicators t, all_institutions)
  | TeamInstitutionConflictsView =>
      (tournament_teams short_name t, all_institutions)
  end.

(** The body of the loop each [get_formset] runs over the forms. *)
Definition loop_body `{Collaborators} (v : ConflictView) (req : Request)
    (t : Tournament) (form : Form) : option Form :=
  let ucn := use_team_code_names t true (user req) in
  match v with
  | AdjudicatorTeamConflictsView =>
      form ← setattr_field "adjudicator"
               (_set_queryset (tournament_adjudicators t)) form;
      form ← setattr_field "team"
               (_set_queryset
                  (tournament_teams (if ucn then code_name else short_name) t))
               form;
      setattr_field "team" (set_use_code_names ucn) form
  | AdjudicatorAdjudicatorConflictsView =>
      form ← setattr_field "adjudicator1"
               (_set_queryset (tournament_adjudicators t)) form;
      setattr_field "adjudicator2" (_set_queryset (tournament_adjudicators t)) form
  | AdjudicatorInstitutionConflictsView =>
      form ← setattr_field "adjudicator"
               (_set_queryset (tournament_adjudicators t)) form;
      setattr_field "institution" (_set_queryset all_institutions) form
  | TeamInstitutionConflictsView =>
      form ← setattr_field "team"
               (_set_queryset (tournament_teams short_name t)) form;
      form ← setattr_field "team" (set_use_code_names ucn) form;
      setattr_field "institution" (_set_queryset all_institutions) form
  end.

(** What the loop leaves in a form: the two model fields carry the choice
    sets of the view, and a team field knows the display preference. *)
Definition assigned `{Collaborators} (v : ConflictView) (req : Request)
    (t : Tournament) (form : Form) : Prop :=
  ∃ g1 g2,
    fields form !! (view_fields v).1 = Some g1
    ∧ fields form !! (view_fields v).2 = Some g2
    ∧ queryset g1 = (assigned_choices v req t).1
    ∧ queryset g2 = (assigned_choices v req t).2
    ∧ (field_class g1 = TeamChoiceField →
       use_code_names g1 = Some (use_team_code_names t true (user req)))
    ∧ (field_class g2 = TeamChoiceField →
       use_code_names g2 = Some (use_team_code_names t true (user req))).

(** A submission the view accepts. *)
Definition valid_submission `{Collaborators} (v : ConflictView) (req : Request)
    (t : Tournament) (db : DB) : bool :=
  match get_formset v req t db with
  | Some formset => formset_is_valid db formset
  | None => false
  end.

(** What a valid submission saves and deletes. *)
Definition submission_result `{Collaborators} (v : ConflictView) (req : Request)
    (t : Tournament) (db : DB) : SaveState :=
  match get_formset v req t db with
  | Some formset => save db formset (formset_model v db) (pk_sequence v db)
  | None => {| table := formset_model v db; sequence := pk_sequence v db;
               saved_instances := []; deleted_objects := [] |}
  end.

(** The tournament a participant belongs to, and the table the first party
    of a view's rows lives in. *)
Definition obj_tournament (o : Obj) : option Tournament :=
  match o with
  | AdjudicatorObj a => Some (adj_tournament a)
  | TeamObj x => Some (team_tournament x)
  | _ => None
  end.

Definition first_party_table (v : ConflictView) (db : DB) : list Obj :=
  match v with
  | TeamInstitutionConflictsView => TeamObj <$> teams db
  | _ => AdjudicatorObj <$> adjudicators db
  end.

(** Every field of every form is disabled. *)
Definition all_fields_disabled (fs : FormSet) : Prop :=
  ∀ form name f, form ∈ forms fs → fields form !! name = Some f →
    disabled f = true.

(* ===================================================================== *)
(** * A small tournament to compute with *)
(* ===================================================================== *)

(** User 1 may edit everything, nobody else may; tournament 7 shows code
    names. *)
Definition sample_collaborators : Collaborators :=
  {| has_permission u p t := bool_decide (u = 1);
     use_team_code_names t admin u := bool_decide (t = 7);
     reverse_tournament name t := "/" +:+ pretty t +:+ "/" +:+ name +:+ "/";
     obj_str o := pretty (obj_pk o);
     validate_unique _ _ := true |}.

Definition sample_db : DB :=
  {| adjudicators :=
       [ {| adj_id := 1; adj_name := "Zed"; adj_tournament := 7 |};
         {| adj_id := 2; adj_name := "Amy"; adj_tournament := 7 |};
         {| adj_id := 3; adj_name := "Bob"; adj_tournament := 8 |} ];
     teams :=
       [ {| team_id := 1; short_name := "B team"; code_name := "Apple";
            team_tournament := 7 |};
         {| team_id := 2; short_name := "A team"; code_name := "Zebra";
            team_tournament := 7 |};
         {| team_id := 3; short_name := "C team"; code_name := "Mango";
            team_tournament := 8 |} ];
     institutions :=
       [ {| inst_id := 1; inst_name := "North" |};
         {| inst_id := 2; inst_name := "South" |} ];
     adjudicatorteamconflicts :=
       [ {| pk := 1; fk1 := 1; fk2 := 1 |};
         {| pk := 2; fk1 := 2; fk2 := 2 |};
         {| pk := 3; fk1 := 3; fk2 := 3 |} ];
     adjudicatoradjudicatorconflicts := [ {| pk := 1; fk1 := 1; fk2 := 2 |} ];
     adjudicatorinstitutionconflicts := [ {| pk := 1; fk1 := 2; fk2 := 1 |} ];
     teaminstitutionconflicts :=
       [ {| pk := 1; fk1 := 1; fk2 := 1 |}; {| pk := 2; fk1 := 2; fk2 := 2 |} ];
     adjudicatorteamconflict_id_seq := 3;
     adjudicatoradjudicatorconflict_id_seq := 1;
     adjudicatorinstitutionconflict_id_seq := 1;
     teaminstitutionconflict_id_seq := 2;
     regions := [ {| region_id := 1; region_name := "Coast" |} ];
     debates := [ {| debate_id := 1; debate_round := 1; debate_adjudicators := [1] |} ];
     preformedpanels :=
       [ {| panel_id := 1; panel_round := 1; panel_adjudicators := [2] |} ];
     preferences := {[ "adj_min_score" := 1; "adj_max_score" := 5 ]} |}.

(** A submission to the adjudicator-team view: the first row changes its
    team, the second is ticked for deletion, a third row is new. *)
Definition sample_submission : gmap string string :=
  list_to_map
    [ ("form-TOTAL_FORMS", "3"); ("form-INITIAL_FORMS", "2");
      ("form-0-id", "2"); ("form-0-adjudicator", "2"); ("form-0-team", "1");
      ("form-1-id", "1"); ("form-1-adjudicator", "1"); ("form-1-team", "1");
      ("form-1-DELETE", "on");
      ("form-2-adjudicator", "1"); ("form-2-team", "2");
      ("add_more", "1") ].

Definition sample_post (u : User) : Request :=
  {| method := POST; user := u; POST_data := sample_submission |}.

Definition sample_get (u : User) : Request :=
  {| method := GET; user := u; POST_data := ∅ |}.

(** A plain deduplicating field over the adjudicators of tournament 7. *)
Definition sample_field : Field :=
  {| field_class := DedupModelChoiceField; required := true; disabled := false;
     empty_label := Some "---------";
     queryset := tournament_adjudicators 7; use_code_names := None |}.

(** The database after tournament 7 lost an adjudicator. *)
Definition sample_db_later : DB :=
  {| adjudicators := [ {| adj_id := 2; adj_name := "Amy"; adj_tournament := 7 |} ];
     teams := teams sample_db; institutions := institutions sample_db;
     adjudicatorteamconflicts := [];
     adjudicatoradjudicatorconflicts := [];
     adjudicatorinstitutionconflicts := [];
     teaminstitutionconflicts := [];
     adjudicatorteamconflict_id_seq := 3;
     adjudicatoradjudicatorconflict_id_seq := 1;
     adjudicatorinstitutionconflict_id_seq := 1;
     teaminstitutionconflict_id_seq := 2;
     regions := []; debates := []; preformedpanels := [];
     preferences := ∅ |}.

(** A tournament with many conflicts on record: 995 rows between
    adjudicator 1 and team 1 of tournament 7. *)
Definition crowded_db : DB :=
  write_formset_model AdjudicatorTeamConflictsView
    ((λ i, {| pk := i; fk1 := 1; fk2 := 1 |}) <$> seq 1 995) 995 sample_db.

(** What a formset shows of the gate: its [extra] setting, the number of
    its forms, and how many of them are blank rows. *)
Definition formset_shape (fs : FormSet) : nat * nat * nat :=
  (extra (formset_class fs), length (forms fs),
   length (filter (λ form, instance form = None) (forms fs))).

(** Allocation collaborators that only read. *)
Definition sample_allocation_collaborators : Allocation.AllocationCollaborators :=
  {| Allocation.mixin_get_extra_info t r :=
       Allocation.ret [("highlights", Allocation.JObj [])];
     Allocation.pref t k :=
       Allocation.select (λ db, Allocation.JNum (default 0 (preferences db !! k)));
     Allocation.preferences_getitem t k :=
       Allocation.select (λ db, Allocation.JNum (default 0 (preferences db !! k)));
     Allocation.ranks_dictionary t a b := Allocation.ret (Allocation.JList [a; b]);
     Allocation.conflicts_serialized_by_participant ts adjs :=
       Allocation.select
         (λ db, (Allocation.JNum (length (teaminstitutionconflicts db)),
                 Allocation.JNum (length (adjudicatorteamconflicts db))));
     Allocation.history_serialized_by_participant r :=
       Allocation.select
         (λ db, (Allocation.JNum (length (debates db)), Allocation.JNull));
     Allocation.annotate_availability adjs r := Allocation.ret adjs;
     Allocation.populate_feedback_scores adjs := Allocation.ret ();
     Allocation.current_round_feedback_weight t :=
       Allocation.ret (Allocation.JNum 1);
     Allocation.adj_serializer_data adjs w :=
       Allocation.ret (Allocation.JList ((λ a, Allocation.JStr (adj_name a)) <$> adjs));
     Allocation.json_render data :=
       match data with Allocation.JList l => pretty (length l) | _ => "" end;
     Allocation.mixin_get_draw_or_panels_objects r :=
       Allocation.select (λ db, filter (λ d, debate_round d = r) (debates db));
     Allocation.debate_serializer ds t r :=
       Allocation.ret (Allocation.JList ((λ d, Allocation.JNum (debate_id d)) <$> ds));
     Allocation.panel_serializer ps r :=
       Allocation.ret (Allocation.JList ((λ p, Allocation.JNum (panel_id p)) <$> ps));
     Allocation.reverse_url name t := "/" +:+ pretty t +:+ "/" +:+ name +:+ "/" |}.

(* ===================================================================== *)
(** * Field objects sharing a queryset *)
(* ===================================================================== *)

(** Python objects are shared by reference: the views build one queryset
    and assign that same object to the field of every form, and
    [DedupModelChoiceField] is written so that neither copying a field nor
    assigning its queryset makes a fresh one.  Here the querysets live in a
    heap and a field object points to one; the counter records how often
    the database is asked. *)
Module Shared.

Record FieldObj := {
  (** everything but the queryset *)
  attrs : Field;
  (** address of the object behind [self._queryset] *)
  _queryset : nat;
}.

Record Heap := {
  querysets : gmap nat QuerySet;
  hits : nat;
}.

(** [DedupModelChoiceField._get_queryset] *)
Definition _get_queryset (h : Heap) (fo : FieldObj) : option QuerySet :=
  querysets h !! _queryset fo.

(** [DedupModelChoiceField._set_queryset], by reference: the field points
    to the object it is given. *)
Definition _set_queryset_ref (l : nat) (fo : FieldObj) : FieldObj :=
  {| attrs := attrs fo; _queryset := l |}.

(** [DedupModelChoiceField.__deepcopy__]: the copy of the plain form field,
    skipping the model choice field's own copying, so the attributes are
    those of the original and [_queryset] is the same object. *)
Definition __deepcopy__ (fo : FieldObj) : FieldObj :=
  {| attrs := attrs fo; _queryset := _queryset fo |}.

Section SharedIteration.
Context `{Collaborators}.

(** Iterating the options of a field object: the queryset object is
    evaluated where it lives.  The outer [None] is a dangling address. *)
Definition iter_obj (db : DB) (h : Heap) (fo : FieldObj)
  : Heap * option (option (list Choice)) :=
  match _get_queryset h fo with
  | None => (h, None)
  | Some qs =>
      let '(f', out) :=
        DedupModelChoiceIterator__iter__ db (_set_queryset qs (attrs fo)) in
      ({| querysets := <[_queryset fo := queryset f']> (querysets h);
          hits := hits h + match _result_cache qs with Some _ => 0 | None => 1 end |},
       Some out)
  end.

(** Rendering the options of several field objects, one after another. *)
Fixpoint iter_objs (db : DB) (h : Heap) (fos : list FieldObj)
  : Heap * list (option (option (list Choice))) :=
  match fos with
  | [] => (h, [])
  | fo :: fos' =>
      let '(h1, out) := iter_obj db h fo in
      let '(h2, outs) := iter_objs db h1 fos' in
      (h2, out :: outs)
  end.

End SharedIteration.

End Shared.

(** A team field nobody told the display preference. *)
Definition sample_team_field : Field :=
  {| field_class := TeamChoiceField; required := true; disabled := false;
     empty_label := Some "---------";
     queryset := tournament_teams short_name 7; use_code_names := None |}.

(** Two copies of one field object, and the heap holding their queryset. *)
Definition sample_field_obj : Shared.FieldObj :=
  {| Shared.attrs := sample_field; Shared._queryset := 0 |}.

Definition sample_heap : Shared.Heap :=
  {| Shared.querysets := {[ 0 := tournament_adjudicators 7 ]};
     Shared.hits := 0 |}.

(** Allocation collaborators whose mixin hands back an info dict without
    the [highlights] entry. *)
Definition bare_allocation_collaborators : Allocation.AllocationCollaborators :=
  {| Allocation.mixin_get_extra_info t r := Allocation.ret [("backUrl", Allocation.JStr "/")];
     Allocation.pref := Allocation.pref (AllocationCollaborators := sample_allocation_collaborators);
     Allocation.preferences_getitem :=
       Allocation.preferences_getitem (AllocationCollaborators := sample_allocation_collaborators);
     Allocation.ranks_dictionary :=
       Allocation.ranks_dictionary (AllocationCollaborators := sample_allocation_collaborators);
     Allocation.conflicts_serialized_by_participant :=
       Allocation.conflicts_serialized_by_participant
         (AllocationCollaborators := sample_allocation_collaborators);
     Allocation.history_serialized_by_participant :=
       Allocation.history_serialized_by_participant
         (AllocationCollaborators := sample_allocation_collaborators);
     Allocation.annotate_availability :=
       Allocation.annotate_availability (AllocationCollaborators := sample_allocation_collaborators);
     Allocation.populate_feedback_scores :=
       Allocation.populate_feedback_scores
         (AllocationCollaborators := sample_allocation_collaborators);
     Allocation.current_round_feedback_weight :=
       Allocation.current_round_feedback_weight
         (AllocationCollaborators := sample_allocation_collaborators);
     Allocation.adj_serializer_data :=
       Allocation.adj_serializer_data (AllocationCollaborators := sample_allocation_collaborators);
     Allocation.json_render :=
       Allocation.json_render (AllocationCollaborators := sample_allocation_collaborators);
     Allocation.mixin_get_draw_or_panels_objects :=
       Allocation.mixin_get_draw_or_panels_objects
         (AllocationCollaborators := sample_allocation_collaborators);
     Allocation.debate_serializer :=
       Allocation.debate_serializer (AllocationCollaborators := sample_allocation_collaborators);
     Allocation.panel_serializer :=
       Allocation.panel_serializer (AllocationCollaborators := sample_allocation_collaborators);
     Allocation.reverse_url :=
       Allocation.reverse_url (AllocationCollaborators := sample_allocation_collaborators) |}.

(** What the info dict of an allocation page holds once [get_extra_info]
    has returned it, the persisted state being [db] by then. *)
Definition extra_info_payload (round : nat)
    (info : list (string * Allocation.JSON)) (db : DB) : Prop :=
  (∃ h rank rs,
      Allocation.dict_get "highlights" info = Some (Allocation.JObj h)
      ∧ Allocation.dict_get "gender" h
        = Some (Allocation.JList
                  [ Allocation.highlight "m" "Male";
                    Allocation.highlight "f" "Female";
                    Allocation.highlight "o" "Other";
                    Allocation.highlight "u" "Unknown" ])
      ∧ Allocation.dict_get "rank" h = Some rank
      ∧ Allocation.dict_get "region" h = Some (Allocation.JList rs))
  ∧ is_Some (Allocation.dict_get "adjMinScore" info)
  ∧ is_Some (Allocation.dict_get "adjMaxScore" info)
  ∧ (∃ settings,
       Allocation.dict_get "allocationSettings" info
       = Some (Allocation.JObj settings)
       ∧ settings.*1 = Allocation.allocation_preferences)
  ∧ is_Some (Allocation.dict_get "clashes" info)
  ∧ is_Some (Allocation.dict_get "histories" info)
  ∧ Allocation.dict_get "hasPreformedPanels" info
    = Some (Allocation.JBool
              (bool_decide
                 (filter (λ p, panel_round p = round) (preformedpanels db) ≠ []))).

(* ===================================================================== *)
(** * Ordering and filtering of querysets *)
(* ===================================================================== *)

Section OrderBy.
Context {A : Type} (key : A → string).

Lemma key_le_total : Total (key_le key).
Proof. intros x y. unfold key_le. apply (total String.le). Qed.

Lemma key_le_trans : Transitive (key_le key).
Proof. intros x y z. unfold key_le. apply transitivity. Qed.

#[local] Existing Instances key_le_total key_le_trans.

Lemma order_by_sorted (rows : list A) :
  StronglySorted (key_le key) (order_by key rows).
Proof. unfold order_by. apply StronglySorted_merge_sort; apply _. Qed.

Lemma order_by_perm (rows : list A) : order_by key rows ≡ₚ rows.
Proof. unfold order_by. apply merge_sort_Permutation. Qed.

Lemma elem_of_order_by (rows : list A) (x : A) :
  x ∈ order_by key rows ↔ x ∈ rows.
Proof. by rewrite order_by_perm. Qed.

Lemma length_order_by (rows : list A) :
  length (order_by key rows) = length rows.
Proof. by rewrite order_by_perm. Qed.

End OrderBy.

Lemma get_formset_queryset_unfold (v : ConflictView) (t : Tournament) (db : DB) :
  get_formset_queryset v t db =
  order_by (ordering_column v db)
    (filter (λ c, tournament_path v db c = Some t) (formset_model v db)).
Proof. by destruct v. Qed.

(** C7. The editable row set of each conflict view is the view's table
    filtered to the current tournament through the foreign-key path of its
    first party, in ascending order of that party's name: the adjudicator's
    name for the three adjudicator views, the team's short name for the
    team-institution view. *)
Theorem editable_rows_filtered_and_ordered
    (v : ConflictView) (t : Tournament) (db : DB) :
  let rows := get_formset_queryset v t db in
  StronglySorted (key_le (ordering_column v db)) rows
  ∧ rows ≡ₚ filter (λ c, tournament_path v db c = Some t) (formset_model v db)
  ∧ (∀ c, c ∈ rows ↔
          c ∈ formset_model v db ∧ tournament_path v db c = Some t)
  ∧ ordering_column v db
    = match v with
      | AdjudicatorTeamConflictsView => adjudicator__name db
      | AdjudicatorAdjudicatorConflictsView => adjudicator1__name db
      | AdjudicatorInstitutionConflictsView => adjudicator__name db
      | TeamInstitutionConflictsView => team__short_name db
      end.
Proof.
  cbv zeta. rewrite get_formset_queryset_unfold. split_and!.
  - apply order_by_sorted.
  - apply order_by_perm.
  - intros c. rewrite elem_of_order_by, list_elem_of_filter. tauto.
  - by destruct v.
Qed.

(* ===================================================================== *)
(** * The deduplicating choice iterator *)
(* ===================================================================== *)

Section Iterator.
Context `{Collaborators}.

Lemma fetch_all_cached (db db' : DB) (qs : QuerySet) :
  (fetch_all db' (fetch_all db qs).1).2 = (fetch_all db qs).2.
Proof. unfold fetch_all. destruct (_result_cache qs) eqn:E; simpl; [by rewrite E|done]. Qed.

(** One iteration leaves a field that draws the same rows whatever the
    database has become, with the same blank label and the same labels. *)
Lemma iter_step (db : DB) (f : Field) :
  (∀ db', backing_rows db' (DedupModelChoiceIterator__iter__ db f).1
          = backing_rows db f)
  ∧ empty_label (DedupModelChoiceIterator__iter__ db f).1 = empty_label f
  ∧ (∀ obj, choice (DedupModelChoiceIterator__iter__ db f).1 obj = choice f obj)
  ∧ (DedupModelChoiceIterator__iter__ db f).2
    = (items ← mapM (choice f) (backing_rows db f);
       Some (match empty_label f with
             | Some l => [(EmptyValue, l)]
             | None => []
             end ++ items)).
Proof.
  unfold DedupModelChoiceIterator__iter__, backing_rows.
  pose proof (fetch_all_cached db) as Hc.
  destruct (fetch_all db (queryset f)) as [qs rows] eqn:E; simpl in *.
  split_and!; try done.
  intros db'. specialize (Hc db' (queryset f)). by rewrite E in Hc.
Qed.

Lemma choice_not_blank (f : Field) (obj : Obj) (c : Choice) :
  choice f obj = Some c → is_blank c = false.
Proof.
  unfold choice. destruct (label_from_instance f obj); intros; by simplify_eq/=.
Qed.

Lemma choices_not_blank (f : Field) (rows : list Obj) (items : list Choice) :
  Forall2 (λ obj c, choice f obj = Some c) rows items →
  filter (λ c, is_blank c = true) items = [].
Proof.
  induction 1 as [|obj c rows items Hc _ IH]; [done|].
  rewrite filter_cons, IH. apply choice_not_blank in Hc.
  case_decide; congruence.
Qed.

Lemma labels_give_choices (f : Field) (rows : list Obj) :
  Forall (λ obj, is_Some (label_from_instance f obj)) rows →
  ∃ items, mapM (choice f) rows = Some items
           ∧ Forall2 (λ obj c, choice f obj = Some c) rows items.
Proof.
  intros Hlbl.
  assert (is_Some (mapM (choice f) rows)) as [items Hitems].
  { apply mapM_is_Some. eapply Forall_impl; [exact Hlbl|].
    intros obj [l Hl]. unfold choice; simpl. rewrite Hl. by eexists. }
  exists items. split; [done|]. by apply mapM_Some.
Qed.

(** Every row has a label on a plain deduplicating field; on a team field
    it does once the display preference has been set and the rows are
    teams. *)
Lemma plain_labels_defined (f : Field) (rows : list Obj) :
  field_class f ≠ TeamChoiceField →
  Forall (λ obj, is_Some (label_from_instance f obj)) rows.
Proof.
  intros Hc. apply Forall_forall. intros obj _. unfold label_from_instance.
  destruct (field_class f); by eauto.
Qed.

Lemma team_labels_defined (f : Field) (b : bool) (xs : list Team) :
  field_class f = TeamChoiceField → use_code_names f = Some b →
  Forall (λ obj, is_Some (label_from_instance f obj)) (TeamObj <$> xs).
Proof.
  intros Hc Hu. apply Forall_fmap, Forall_forall. intros x _.
  unfold compose, label_from_instance. rewrite Hc, Hu. by eexists.
Qed.

(** The first of any run of iterations. *)
Lemma first_iteration (db : DB) (f : Field) :
  Forall (λ obj, is_Some (label_from_instance f obj)) (backing_rows db f) →
  ∃ out, (DedupModelChoiceIterator__iter__ db f).2 = Some out
         ∧ well_formed_options f (backing_rows db f) out.
Proof.
  intros Hlbl. destruct (iter_step db f) as (_ & _ & _ & Hout).
  destruct (labels_give_choices _ _ Hlbl) as (items & Hitems & HF).
  rewrite Hitems in Hout; simpl in Hout. eexists; split; [exact Hout|].
  unfold well_formed_options. destruct (empty_label f) as [l|]; simpl.
  - exists items. split_and!; [done| |done].
    by rewrite (choices_not_blank f _ _ HF).
  - split; [|done]. by apply (choices_not_blank f _ _ HF).
Qed.

(** Well-formedness only looks at the blank label and the labels. *)
Lemma well_formed_options_transport (f f' : Field) (rows : list Obj)
    (out : list Choice) :
  empty_label f' = empty_label f →
  (∀ obj, choice f' obj = choice f obj) →
  well_formed_options f' rows out → well_formed_options f rows out.
Proof.
  intros Hel Hch. unfold well_formed_options. rewrite Hel.
  destruct (empty_label f).
  - intros (items & ? & ? & HF). exists items. split_and!; try done.
    eapply Forall2_impl; [exact HF|]. intros; simpl in *. by rewrite <-Hch.
  - intros (? & HF). split; [done|].
    eapply Forall2_impl; [exact HF|]. intros; simpl in *. by rewrite <-Hch.
Qed.

Lemma iterations_spec (dbs : list DB) :
  ∀ (db : DB) (f : Field) (k : nat),
    Forall (λ obj, is_Some (label_from_instance f obj)) (backing_rows db f) →
    k < length (db :: dbs) →
    ∃ out, iterations (db :: dbs) f !! k = Some (Some out)
           ∧ well_formed_options f (backing_rows db f) out.
Proof.
  induction dbs as [|db2 dbs IH]; intros db f k Hlbl Hk.
  - destruct k; [|simpl in Hk; lia].
    destruct (first_iteration db f Hlbl) as (out & Hout & Hwf).
    exists out. split; [|done]. simpl.
    destruct (DedupModelChoiceIterator__iter__ db f); simpl in *. by subst.
  - destruct (iter_step db f) as (Hrows & Hel & Hch & _).
    destruct k as [|k].
    + destruct (first_iteration db f Hlbl) as (out & Hout & Hwf).
      exists out. split; [|done].
      change (iterations (db :: db2 :: dbs) f) with
        (let '(f', o) := DedupModelChoiceIterator__iter__ db f in
         o :: iterations (db2 :: dbs) f').
      destruct (DedupModelChoiceIterator__iter__ db f); simpl in *. by subst.
    + change (iterations (db :: db2 :: dbs) f) with
        (let '(f', o) := DedupModelChoiceIterator__iter__ db f in
         o :: iterations (db2 :: dbs) f').
      destruct (DedupModelChoiceIterator__iter__ db f) as [f' res];
        simpl in Hrows, Hel, Hch.
      destruct (IH db2 f' k) as (out & Hk' & Hwf).
      { rewrite Hrows. eapply Forall_impl; [exact Hlbl|]. intros obj [l Hl].
        specialize (Hch obj). unfold choice in Hch.
        destruct (label_from_instance f' obj); [by eexists|].
        rewrite Hl in Hch. done. }
      { simpl in *. lia. }
      exists out. split; [exact Hk'|].
      rewrite Hrows in Hwf. by eapply well_formed_options_transport.
Qed.

(** C5. Iterating the options of a deduplicating choice field any number
    of times: provided every row has a label, each iteration completes; when
    [empty_label] is set it yields the blank option exactly once, first,
    followed by one choice per row of the backing queryset, and when
    [empty_label] is [None] it yields no blank option, only one choice per
    row. *)
Theorem dedup_iterator_blank_once (f : Field) (db : DB) (dbs : list DB) (k : nat) :
  Forall (λ obj, is_Some (label_from_instance f obj)) (backing_rows db f) →
  k < length (db :: dbs) →
  ∃ out, iterations (db :: dbs) f !! k = Some (Some out)
    ∧ match empty_label f with
      | Some l =>
          ∃ items, out = (EmptyValue, l) :: items
            ∧ length (filter (λ c, is_blank c = true) out) = 1
            ∧ Forall2 (λ obj c, choice f obj = Some c) (backing_rows db f) items
      | None =>
          filter (λ c, is_blank c = true) out = []
          ∧ Forall2 (λ obj c, choice f obj = Some c) (backing_rows db f) out
      end.
Proof. apply iterations_spec. Qed.

End Iterator.

(* ===================================================================== *)
(** * The formset a view builds *)
(* ===================================================================== *)

Section FormsetFacts.
Context `{Collaborators}.

(** The formset class the factory builds from a view's keyword arguments. *)
Lemma factory_of_view (v : ConflictView) (req : Request) (t : Tournament) :
  let cls := modelformset_factory (get_formset_factory_kwargs v req t) in
  let can_edit := has_permission (user req) (get_edit_permission v) t in
  fc_fields cls = [(view_fields v).1; (view_fields v).2]
  ∧ fc_field_classes cls
    = <[(view_fields v).2 := (view_field_classes v).2]>
        (<[(view_fields v).1 := (view_field_classes v).1]> ∅)
  ∧ extra cls = 10 * int can_edit
  ∧ can_delete cls = can_edit
  ∧ max_num cls = 1000.
Proof. by destruct v. Qed.

(** Lookups in the field dict of a form: the two model fields, the hidden
    primary key, and the deletion checkbox when there is one. *)
Lemma model_fields_lookup (a b : string) (x y p dfield : Field) (del : bool) :
  a ≠ b → a ≠ "id" → b ≠ "id" → a ≠ "DELETE" → b ≠ "DELETE" →
  let m : gmap string Field := <["id" := p]> (list_to_map [(a, x); (b, y)]) in
  let m' := if del then <["DELETE" := dfield]> m else m in
  m' !! a = Some x ∧ m' !! b = Some y ∧ (is_Some (m' !! "DELETE") ↔ del = true).
Proof.
  intros ????? m m'. subst m m'. simpl.
  destruct del; split_and!; by simplify_map_eq.
Qed.

(** The fields of a freshly constructed form. *)
Lemma construct_form_model_fields (v : ConflictView) (req : Request)
    (t : Tournament) (bound : bool) (d : gmap string string)
    (rows : list Conflict) (n0 : Z) (i : nat) :
  let cls := modelformset_factory (get_formset_factory_kwargs v req t) in
  let form := _construct_form cls bound d rows n0 i in
  ∃ f1 f2,
    fields form !! (view_fields v).1 = Some f1
    ∧ fields form !! (view_fields v).2 = Some f2
    ∧ field_class f1 = (view_field_classes v).1
    ∧ field_class f2 = (view_field_classes v).2
    ∧ disabled f1 = false ∧ disabled f2 = false
    ∧ (is_Some (fields form !! "DELETE") ↔
       has_permission (user req) (get_edit_permission v) t = true).
Proof.
  intros cls form. subst form. unfold _construct_form.
  destruct (factory_of_view v req t) as (Hf & Hc & _ & Hd & _).
  fold cls in Hf, Hc, Hd. cbv zeta. cbn [fields]. rewrite Hd, Hf.
  cbn [fmap list_fmap].
  edestruct (model_fields_lookup (view_fields v).1 (view_fields v).2)
    as (H1 & H2 & H3); [by destruct v..|].
  eexists _, _. split; [exact H1|]. split; [exact H2|].
  split_and!; [| |done|done|exact H3];
    unfold model_field; cbn [field_class]; rewrite Hc;
    destruct v; by simplify_map_eq.
Qed.

Lemma elem_of_build_formset (cls : FormSetClass) (bound : bool)
    (d : gmap string string) (rows : list Conflict) (form : Form) :
  form ∈ forms (build_formset cls bound d rows) →
  ∃ n0 i, form = _construct_form cls bound d rows n0 i.
Proof.
  unfold build_formset. cbn [forms set_forms].
  intros (i & -> & _)%list_elem_of_fmap. by eexists _, _.
Qed.

Lemma ModelFormSetView_forms (v : ConflictView) (req : Request) (t : Tournament)
    (db : DB) (form : Form) :
  form ∈ forms (ModelFormSetView_get_formset v req t db) →
  ∃ bound d rows n0 i,
    form = _construct_form
             (modelformset_factory (get_formset_factory_kwargs v req t))
             bound d rows n0 i.
Proof.
  unfold ModelFormSetView_get_formset.
  destruct (method req); intros (n0 & i & ->)%elem_of_build_formset;
    by eexists _, _, _, _, _.
Qed.

Lemma ModelFormSetView_formset_class (v : ConflictView) (req : Request)
    (t : Tournament) (db : DB) :
  formset_class (ModelFormSetView_get_formset v req t db)
  = modelformset_factory (get_formset_factory_kwargs v req t).
Proof. unfold ModelFormSetView_get_formset. by destruct (method req). Qed.

Lemma Base_formset_class (v : ConflictView) (req : Request)
    (t : Tournament) (db : DB) :
  formset_class (BaseAdjudicatorConflictsView_get_formset v req t db)
  = modelformset_factory (get_formset_factory_kwargs v req t).
Proof.
  unfold BaseAdjudicatorConflictsView_get_formset.
  destruct (negb _); cbn [set_forms formset_class];
    apply ModelFormSetView_formset_class.
Qed.

(** The forms the base class hands to its subclasses: the two model fields
    are there with their declared classes, every field is disabled when the
    user may not edit, and the deletion checkbox is there exactly when the
    user may. *)
Lemma Base_forms (v : ConflictView) (req : Request) (t : Tournament) (db : DB)
    (form : Form) :
  form ∈ forms (BaseAdjudicatorConflictsView_get_formset v req t db) →
  let can_edit := has_permission (user req) (get_edit_permission v) t in
  (∃ f1 f2,
      fields form !! (view_fields v).1 = Some f1
      ∧ fields form !! (view_fields v).2 = Some f2
      ∧ field_class f1 = (view_field_classes v).1
      ∧ field_class f2 = (view_field_classes v).2
      ∧ disabled f1 = negb can_edit ∧ disabled f2 = negb can_edit)
  ∧ (can_edit = false →
     ∀ name f, fields form !! name = Some f → disabled f = true)
  ∧ (is_Some (fields form !! "DELETE") ↔ can_edit = true).
Proof.
  unfold BaseAdjudicatorConflictsView_get_formset. intros Hin. cbv zeta.
  destruct (has_permission (user req) (get_edit_permission v) t) eqn:Hce;
    cbn [negb] in Hin.
  - apply ModelFormSetView_forms in Hin as (bound & d & rows & n0 & i & ->).
    destruct (construct_form_model_fields v req t bound d rows n0 i)
      as (f1 & f2 & ? & ? & ? & ? & ? & ? & HD).
    split_and!; [by exists f1, f2|done|].
    by rewrite HD, Hce.
  - cbn [forms set_forms] in Hin.
    apply list_elem_of_fmap in Hin as (form0 & -> & Hin).
    apply ModelFormSetView_forms in Hin as (bound & d & rows & n0 & i & ->).
    destruct (construct_form_model_fields v req t bound d rows n0 i)
      as (f1 & f2 & H1 & H2 & ? & ? & ? & ? & HD).
    cbn [fields set_fields]. split_and!.
    + exists (set_disabled true f1), (set_disabled true f2).
      rewrite !lookup_fmap, H1, H2. by split_and!.
    + intros _ name f. rewrite lookup_fmap.
      by intros (f0 & _ & ->)%fmap_Some.
    + by rewrite lookup_fmap, fmap_is_Some, HD, Hce.
Qed.

(** Assigning an attribute of one field. *)
Lemma setattr_field_Some (name : string) (upd : Field → Field) (form form' : Form) :
  setattr_field name upd form = Some form' →
  ∃ f, fields form !! name = Some f
       ∧ form' = set_fields (<[name := upd f]> (fields form)) form.
Proof.
  unfold setattr_field. intros (f & ? & ?)%bind_Some. exists f. by simplify_eq.
Qed.

Lemma same_flags_refl (f : Field) : same_flags f f.
Proof. by repeat split. Qed.

Lemma same_flags_trans (f g h : Field) :
  same_flags f g → same_flags g h → same_flags f h.
Proof. unfold same_flags. intros (?&?&?&?) (?&?&?&?). split_and!; congruence. Qed.

Lemma retouched_refl (form : Form) : retouched form form.
Proof.
  repeat split. intros name. destruct (fields form !! name); constructor.
  apply same_flags_refl.
Qed.

Lemma retouched_trans (x y z : Form) : retouched x y → retouched y z → retouched x z.
Proof.
  intros (?&?&?&?&?&?&Hxy) (?&?&?&?&?&?&Hyz). split_and!; try congruence.
  intros name. specialize (Hxy name). specialize (Hyz name).
  destruct Hxy as [f g Hfg|]; inversion Hyz; simplify_eq; constructor.
  by eapply same_flags_trans.
Qed.

Lemma setattr_field_retouched (name : string) (upd : Field → Field)
    (form form' : Form) :
  (∀ f, same_flags f (upd f)) →
  setattr_field name upd form = Some form' → retouched form form'.
Proof.
  intros Hupd (f & Hf & ->)%setattr_field_Some. repeat split.
  intros n. cbn [fields set_fields].
  destruct (decide (name = n)) as [->|Hne].
  - rewrite lookup_insert_eq, Hf. constructor. apply Hupd.
  - rewrite lookup_insert_ne by done.
    destruct (fields form !! n); constructor. apply same_flags_refl.
Qed.

Lemma set_queryset_flags (qs : QuerySet) (f : Field) : same_flags f (_set_queryset qs f).
Proof. by repeat split. Qed.

Lemma set_use_code_names_flags (b : bool) (f : Field) :
  same_flags f (set_use_code_names b f).
Proof. by repeat split. Qed.

Lemma get_formset_unfold (v : ConflictView) (req : Request) (t : Tournament)
    (db : DB) :
  get_formset v req t db
  = (forms' ← mapM (loop_body v req t)
                (forms (BaseAdjudicatorConflictsView_get_formset v req t db));
     Some (set_forms forms' (BaseAdjudicatorConflictsView_get_formset v req t db))).
Proof. by destruct v. Qed.

Lemma loop_body_retouched (v : ConflictView) (req : Request) (t : Tournament)
    (form form' : Form) :
  loop_body v req t form = Some form' → retouched form form'.
Proof.
  unfold loop_body. destruct v; intros Hb;
    repeat match goal with
    | H : _ ≫= _ = Some _ |- _ => apply bind_Some in H as (? & ? & ?)
    | H : setattr_field _ _ _ = Some _ |- _ =>
        apply setattr_field_retouched in H;
        [|intros; (apply set_queryset_flags || apply set_use_code_names_flags)]
    end;
    eauto using retouched_trans.
Qed.

Lemma loop_body_assigns (v : ConflictView) (req : Request) (t : Tournament)
    (form : Form) (f1 f2 : Field) :
  fields form !! (view_fields v).1 = Some f1 →
  fields form !! (view_fields v).2 = Some f2 →
  field_class f1 = (view_field_classes v).1 →
  field_class f2 = (view_field_classes v).2 →
  ∃ form', loop_body v req t form = Some form' ∧ assigned v req t form'.
Proof.
  intros H1 H2 Hc1 Hc2. unfold loop_body, assigned, setattr_field.
  destruct v; cbn [view_fields view_field_classes fst snd] in *;
    rewrite ?H1, ?H2; cbn [mbind option_bind fields set_fields];
    simplify_map_eq; cbn [mbind option_bind fields set_fields];
    simplify_map_eq; cbn [mbind option_bind fields set_fields];
    (eexists; split; [reflexivity|]); cbn [fields set_fields];
    eexists _, _; simplify_map_eq; split_and!; try reflexivity;
    cbn [field_class _set_queryset set_use_code_names use_code_names];
    congruence.
Qed.

(** [get_formset] never raises: it returns the base formset with every form
    run through the loop body. *)
Lemma get_formset_spec (v : ConflictView) (req : Request) (t : Tournament)
    (db : DB) :
  ∃ fs, get_formset v req t db = Some fs
    ∧ formset_class fs = modelformset_factory (get_formset_factory_kwargs v req t)
    ∧ is_bound fs = is_bound (BaseAdjudicatorConflictsView_get_formset v req t db)
    ∧ get_queryset fs
      = get_queryset (BaseAdjudicatorConflictsView_get_formset v req t db)
    ∧ Forall2 (λ form form', loop_body v req t form = Some form')
        (forms (BaseAdjudicatorConflictsView_get_formset v req t db)) (forms fs).
Proof.
  rewrite get_formset_unfold.
  set (base := BaseAdjudicatorConflictsView_get_formset v req t db).
  assert (is_Some (mapM (loop_body v req t) (forms base))) as [forms' Hm].
  { apply mapM_is_Some, Forall_forall. intros form Hin. unfold compose.
    apply Base_forms in Hin as ((f1 & f2 & H1 & H2 & Hc1 & Hc2 & _) & _).
    destruct (loop_body_assigns v req t form f1 f2) as (form' & -> & _); eauto. }
  rewrite Hm. cbn [mbind option_bind]. eexists; split; [reflexivity|].
  cbn [set_forms formset_class is_bound get_queryset forms].
  split_and!; [apply Base_formset_class|done|done|by apply mapM_Some].
Qed.

(** Each form of the formset a view returns comes from a form of the base
    class's formset, touched up in place, with the view's choices set. *)
Lemma get_formset_forms (v : ConflictView) (req : Request) (t : Tournament)
    (db : DB) (fs : FormSet) (form' : Form) :
  get_formset v req t db = Some fs → form' ∈ forms fs →
  ∃ form, form ∈ forms (BaseAdjudicatorConflictsView_get_formset v req t db)
          ∧ retouched form form' ∧ assigned v req t form'.
Proof.
  intros Hget Hin.
  destruct (get_formset_spec v req t db) as (fs0 & Hget0 & _ & _ & _ & HF).
  rewrite Hget in Hget0. injection Hget0 as <-.
  apply list_elem_of_lookup in Hin as (i & Hi).
  destruct (Forall2_lookup_r _ _ _ _ _ HF Hi) as (form & Hform & Hbody).
  exists form. split; [by eapply list_elem_of_lookup_2|].
  split; [by eapply loop_body_retouched|].
  apply list_elem_of_lookup_2, Base_forms in Hform
    as ((f1 & f2 & H1 & H2 & Hc1 & Hc2 & _) & _).
  destruct (loop_body_assigns v req t form f1 f2) as (form2 & Hb2 & Ha); eauto.
  rewrite Hbody in Hb2. by injection Hb2 as <-.
Qed.

Lemma retouched_disabled (form form' : Form) :
  retouched form form' →
  (∀ name f, fields form !! name = Some f → disabled f = true) →
  ∀ name f, fields form' !! name = Some f → disabled f = true.
Proof.
  intros (_&_&_&_&_&_&Hr) Hdis name f' Hf'. specialize (Hr name).
  rewrite Hf' in Hr. inversion Hr as [f ? (Hd & _) Hf|]; subst.
  rewrite Hd. eapply Hdis. by symmetry.
Qed.

(** Without the edit permission every field of every form ends up
    disabled. *)
Lemma get_formset_all_disabled (v : ConflictView) (req : Request)
    (t : Tournament) (db : DB) (fs : FormSet) :
  has_permission (user req) (get_edit_permission v) t = false →
  get_formset v req t db = Some fs → all_fields_disabled fs.
Proof.
  intros Hperm Hget form' name f' Hin Hf'.
  destruct (get_formset_forms _ _ _ _ _ _ Hget Hin) as (form & Hform & Hr & _).
  eapply retouched_disabled; [exact Hr| |exact Hf'].
  apply Base_forms in Hform as (_ & Hdis & _). by apply Hdis.
Qed.

(** ** Saving a formset whose fields are all disabled *)

Lemma has_changed_disabled (form : Form) :
  (∀ name f, fields form !! name = Some f → disabled f = true) →
  has_changed form = false.
Proof.
  intros Hdis. unfold has_changed. apply not_true_is_false.
  intros ([name f] & Hin & Hch)%existsb_exists.
  apply list_elem_of_In, elem_of_map_to_list in Hin.
  unfold field_has_changed in Hch. simpl in Hch.
  by rewrite (Hdis _ _ Hin) in Hch.
Qed.

Lemma foldl_fixed {A B} (step : A → B → A) (l : list B) (a : A) :
  (∀ x, x ∈ l → step a x = a) → foldl step a l = a.
Proof.
  induction l as [|x l IH]; intros Hfix; [done|]. simpl.
  rewrite Hfix by left. apply IH. intros y Hy. apply Hfix. by right.
Qed.

Lemma save_nothing (db : DB) (fs : FormSet) (tbl : list Conflict) (seq : nat) :
  all_fields_disabled fs →
  can_delete (formset_class fs) = false →
  save db fs tbl seq
  = {| table := tbl; sequence := seq; saved_instances := [];
       deleted_objects := [] |}.
Proof.
  intros Hdis Hcd. unfold save, save_new_objects, save_existing_objects.
  assert (deleted_forms db fs = []) as ->.
  { unfold deleted_forms. rewrite Hcd. by rewrite orb_true_r. }
  rewrite foldl_fixed.
  - apply foldl_fixed. intros [i form] Hin. unfold save_existing_step.
    apply list_elem_of_lookup in Hin as (j & Hj).
    rewrite list_lookup_imap in Hj.
    apply fmap_Some in Hj as (form0 & Hform0 & [= -> ->]).
    destruct (instance form0); [|done].
    rewrite bool_decide_false by apply not_elem_of_nil.
    rewrite has_changed_disabled; [done|].
    intros name f. apply Hdis. unfold initial_forms in Hform0.
    apply list_elem_of_lookup_2 in Hform0. by eapply subseteq_take.
  - intros form Hin. unfold save_new_step.
    rewrite has_changed_disabled; [done|].
    intros name f. apply Hdis. unfold extra_forms in Hin.
    by eapply subseteq_drop.
Qed.

Lemma write_formset_model_same (v : ConflictView) (db : DB) :
  write_formset_model v (formset_model v db) (pk_sequence v db) db = db.
Proof. by destruct v, db. Qed.

Lemma formset_model_written (v : ConflictView) (rows : list Conflict)
    (seq : nat) (db : DB) :
  formset_model v (write_formset_model v rows seq db) = rows.
Proof. by destruct v. Qed.

(** C1. Whatever is submitted to a conflict view by a user without the
    view's edit permission, the request is handled and the persisted state
    is left as it was: no conflict row is created, modified or deleted. *)
Theorem no_edit_permission_leaves_rows_unchanged
    (v : ConflictView) (req : Request) (t : Tournament) (db : DB)
    (msgs : list Message) :
  has_permission (user req) (edit_permission v) t = false →
  ∃ out, dispatch v req t db msgs = Some out
         ∧ db_after out = db
         ∧ instances out = [].
Proof.
  intros Hperm.
  destruct (get_formset_spec v req t db) as (fs & Hget & Hcls & _).
  pose proof (get_formset_all_disabled v req t db fs Hperm Hget) as Hdis.
  assert (can_delete (formset_class fs) = false) as Hcd.
  { rewrite Hcls. destruct (factory_of_view v req t) as (_ & _ & _ & -> & _).
    exact Hperm. }
  unfold dispatch, get, post. rewrite Hget. cbn [mbind option_bind].
  destruct (method req); [by eexists|].
  destruct (formset_is_valid db fs); [|by eexists].
  unfold formset_valid, ModelFormSetView_formset_valid.
  rewrite (save_nothing db fs _ _ Hdis Hcd). cbn [table sequence saved_instances].
  rewrite write_formset_model_same.
  destruct (bool_decide _); by eexists.
Qed.

(** ** The forms offered on a GET request *)

Lemma Base_forms_GET (v : ConflictView) (req : Request) (t : Tournament)
    (db : DB) :
  method req = GET →
  let cls := modelformset_factory (get_formset_factory_kwargs v req t) in
  let rows := get_formset_queryset v t db in
  ∃ touch : Form → Form,
    (∀ form, instance (touch form) = instance form)
    ∧ forms (BaseAdjudicatorConflictsView_get_formset v req t db)
      = (λ i, touch (_construct_form cls false ∅ rows
                       (Z.of_nat (length rows)) i))
          <$> seq 0 (total_form_count cls false ∅ rows).
Proof.
  intros Hm cls rows.
  unfold BaseAdjudicatorConflictsView_get_formset, ModelFormSetView_get_formset.
  rewrite Hm. fold cls rows. destruct (negb _).
  - exists (λ form, set_fields (set_disabled true <$> fields form) form).
    split; [done|]. cbn [forms set_forms build_formset].
    by rewrite <-list_fmap_compose.
  - exists id. split; [done|]. cbn [forms set_forms build_formset].
    done.
Qed.

Lemma get_formset_GET (v : ConflictView) (req : Request) (t : Tournament)
    (db : DB) (fs : FormSet) :
  method req = GET → get_formset v req t db = Some fs →
  let cls := modelformset_factory (get_formset_factory_kwargs v req t) in
  let rows := get_formset_queryset v t db in
  length (forms fs) = total_form_count cls false ∅ rows
  ∧ ∀ i form, forms fs !! i = Some form →
      instance form = (if bool_decide (i < length rows) then rows !! i else None).
Proof.
  intros Hm Hget cls rows.
  destruct (get_formset_spec v req t db) as (fs0 & Hget0 & _ & _ & _ & HF).
  rewrite Hget in Hget0. injection Hget0 as <-.
  destruct (Base_forms_GET v req t db Hm) as (touch & Htouch & Hbase).
  fold cls rows in Hbase. rewrite Hbase in HF. split.
  - apply Forall2_length in HF. by rewrite <-HF, length_fmap, length_seq.
  - intros i form Hi.
    destruct (Forall2_lookup_r _ _ _ _ _ HF Hi) as (form0 & Hform0 & Hbody).
    apply loop_body_retouched in Hbody as (_&_&_&->&_).
    rewrite list_lookup_fmap in Hform0.
    apply fmap_Some in Hform0 as (j & Hj & ->).
    apply lookup_seq in Hj as [-> _]. rewrite Htouch.
    unfold _construct_form. cbn [instance]. rewrite Nat.add_0_l.
    by rewrite (bool_decide_ext _ _ (iff_sym (Nat2Z.inj_lt i (length rows)))).
Qed.

(** On a POST request the formset is bound to the submitted data, and the
    number of its forms is the count the management form declares. *)
Lemma get_formset_POST (v : ConflictView) (req : Request) (t : Tournament)
    (db : DB) (fs : FormSet) :
  method req = POST → get_formset v req t db = Some fs →
  length (forms fs)
  = Z.to_nat (Z.min (TOTAL_FORMS (management_form (POST_data req))) 2000).
Proof.
  intros Hm Hget.
  destruct (get_formset_spec v req t db) as (fs0 & Hget0 & _ & _ & _ & HF).
  rewrite Hget in Hget0. injection Hget0 as <-.
  apply Forall2_length in HF. rewrite <-HF.
  unfold BaseAdjudicatorConflictsView_get_formset, ModelFormSetView_get_formset.
  rewrite Hm.
  destruct (negb _); cbn [forms set_forms build_formset];
    rewrite !length_fmap, length_seq; reflexivity.
Qed.

(** C4, as amended.  The permission gate of every conflict view, for every
    request.  The factory's keyword arguments carry [extra = 0] and
    deletion disabled when the user lacks the edit permission, and
    [extra = 10] and deletion enabled when the user has it; the formset is
    built with exactly these settings.  Without the permission every field
    of every form is disabled.  The deletion checkbox is on a form exactly
    when the user may edit.  How many blank rows follow from [extra]
    depends on the request.  On a GET request the forms are the editable
    rows followed by blank ones: [extra] of them while the form layer's
    limit of 1000 forms allows, otherwise as many as still fit, and none
    once the rows alone reach the limit.  On a POST request the number of
    forms is the count the submitted management form declares, at most
    2000, whatever the permission. *)
Theorem permission_gate
    (v : ConflictView) (req : Request) (t : Tournament) (db : DB) :
  let can_edit := has_permission (user req) (edit_permission v) t in
  let rows := get_formset_queryset v t db in
  get_formset_factory_kwargs v req t !! "extra"
    = Some (KInt (if can_edit then 10 else 0))
  ∧ get_formset_factory_kwargs v req t !! "can_delete" = Some (KBool can_edit)
  ∧ ∃ fs, get_formset v req t db = Some fs
      ∧ extra (formset_class fs) = (if can_edit then 10 else 0)
      ∧ can_delete (formset_class fs) = can_edit
      ∧ (can_edit = false → all_fields_disabled fs)
      ∧ (∀ form, form ∈ forms fs →
           (is_Some (fields form !! "DELETE") ↔ can_edit = true))
      ∧ (method req = GET →
         length (forms fs)
         = length rows
           + ((if can_edit then 10 else 0) `min` (1000 - length rows))
         ∧ (∀ i form, forms fs !! i = Some form →
              instance form = (if bool_decide (i < length rows) then rows !! i
                               else None)))
      ∧ (method req = POST →
         length (forms fs)
         = Z.to_nat
             (Z.min (TOTAL_FORMS (management_form (POST_data req))) 2000)).
Proof.
  intros can_edit rows.
  change (edit_permission v) with (get_edit_permission v) in can_edit.
  assert (10 * int can_edit = if can_edit then 10 else 0) as Hten
    by by destruct can_edit.
  split; [|split].
  - unfold get_formset_factory_kwargs. fold can_edit.
    rewrite lookup_insert_ne by done. by rewrite lookup_insert_eq, Hten.
  - unfold get_formset_factory_kwargs. fold can_edit.
    by rewrite lookup_insert_eq.
  - destruct (get_formset_spec v req t db) as (fs & Hget & Hcls & _).
    destruct (factory_of_view v req t) as (_ & _ & Hex & Hcd & Hmax).
    cbv zeta in Hex, Hcd, Hmax. fold can_edit in Hex, Hcd.
    exists fs. split; [done|]. rewrite Hcls.
    split; [by rewrite Hex, <-Hten|]. split; [exact Hcd|].
    split; [intros Hperm; by eapply get_formset_all_disabled|].
    split; [|split].
    + intros form' Hin.
      destruct (get_formset_forms _ _ _ _ _ _ Hget Hin)
        as (form & Hform & (_&_&_&_&_&_&Hr) & _).
      apply Base_forms in Hform as (_ & _ & HD). fold can_edit in HD.
      rewrite <-HD.
      specialize (Hr "DELETE"). destruct Hr; split; intros [? ?]; by eauto.
    + intros Hm.
      destruct (get_formset_GET v req t db fs Hm Hget) as (Hlen & Hinst).
      split; [|exact Hinst]. rewrite Hlen.
      unfold total_form_count. rewrite Hmax, Hex, Hten. fold rows.
      cbn [is_bound]. repeat case_bool_decide; destruct can_edit; lia.
    + intros Hm. by apply (get_formset_POST v req t db).
Qed.

(** ** The choices a view sets on its forms *)

Lemma final_fields (v : ConflictView) (req : Request) (t : Tournament)
    (db : DB) (fs : FormSet) (form : Form) :
  get_formset v req t db = Some fs → form ∈ forms fs →
  ∃ g1 g2,
    fields form !! (view_fields v).1 = Some g1
    ∧ fields form !! (view_fields v).2 = Some g2
    ∧ field_class g1 = (view_field_classes v).1
    ∧ field_class g2 = (view_field_classes v).2
    ∧ queryset g1 = (assigned_choices v req t).1
    ∧ queryset g2 = (assigned_choices v req t).2
    ∧ (field_class g1 = TeamChoiceField →
       use_code_names g1 = Some (use_team_code_names t true (user req)))
    ∧ (field_class g2 = TeamChoiceField →
       use_code_names g2 = Some (use_team_code_names t true (user req))).
Proof.
  intros Hget Hin.
  destruct (get_formset_forms _ _ _ _ _ _ Hget Hin)
    as (form0 & Hform0 & (_&_&_&_&_&_&Hr) & (g1 & g2 & H1 & H2 & Hq1 & Hq2 & Hu1 & Hu2)).
  apply Base_forms in Hform0 as ((f1 & f2 & Hf1 & Hf2 & Hc1 & Hc2 & _) & _).
  exists g1, g2.
  pose proof (Hr (view_fields v).1) as Hr1. rewrite Hf1, H1 in Hr1.
  pose proof (Hr (view_fields v).2) as Hr2. rewrite Hf2, H2 in Hr2.
  inversion Hr1 as [? ? (_ & Hk1 & _)|]; inversion Hr2 as [? ? (_ & Hk2 & _)|].
  subst. split_and!; try done; congruence.
Qed.

Lemma backing_rows_fresh (db : DB) (f : Field) (q : DB → list Obj) :
  queryset f = mk_queryset q → backing_rows db f = q db.
Proof. unfold backing_rows. by intros ->. Qed.

Lemma team_label (f : Field) (b : bool) (x : Team) :
  field_class f = TeamChoiceField → use_code_names f = Some b →
  label_from_instance f (TeamObj x) = Some (if b then code_name x else short_name x).
Proof. unfold label_from_instance. by intros -> ->. Qed.

(** C2. In the team-institution view both the editable rows and the team
    options of every form are in ascending order of the team's short name,
    whatever the code-name preference says; the labels of the options
    do follow the preference. *)
Theorem team_institution_ordered_by_short_name
    (req : Request) (t : Tournament) (db : DB) :
  let v := TeamInstitutionConflictsView in
  let rows := get_formset_queryset v t db in
  StronglySorted (key_le (team__short_name db)) rows
  ∧ rows ≡ₚ filter (λ c, team__tournament db c = Some t)
               (teaminstitutionconflicts db)
  ∧ ∃ fs, get_formset v req t db = Some fs
      ∧ ∀ form, form ∈ forms fs →
          ∃ f offered,
            fields form !! "team" = Some f
            ∧ backing_rows db f = TeamObj <$> offered
            ∧ StronglySorted (key_le short_name) offered
            ∧ offered ≡ₚ team_set t db
            ∧ ∀ x, label_from_instance f (TeamObj x)
                   = Some (if use_team_code_names t true (user req)
                           then code_name x else short_name x).
Proof.
  intros v rows. split; [apply order_by_sorted|]. split; [apply order_by_perm|].
  destruct (get_formset_spec v req t db) as (fs & Hget & _).
  exists fs. split; [done|]. intros form Hin.
  destruct (final_fields v req t db fs form Hget Hin)
    as (g1 & _ & H1 & _ & Hc1 & _ & Hq1 & _ & Hu1 & _).
  exists g1, (order_by short_name (team_set t db)).
  split; [exact H1|].
  split; [exact (backing_rows_fresh db g1
                  (λ db, TeamObj <$> order_by short_name (team_set t db)) Hq1)|].
  split; [apply order_by_sorted|]. split; [apply order_by_perm|].
  intros x. apply team_label; [exact Hc1|]. by apply Hu1.
Qed.

(** C6. Every team option of a conflict form is labelled with the team's
    code name when the code-name preference is on for the requesting user
    and tournament, and with its short name otherwise. *)
Theorem team_label_follows_preference
    (v : ConflictView) (req : Request) (t : Tournament) (db : DB) :
  v = AdjudicatorTeamConflictsView ∨ v = TeamInstitutionConflictsView →
  ∃ fs, get_formset v req t db = Some fs
    ∧ ∀ form, form ∈ forms fs →
        ∃ f, fields form !! "team" = Some f
          ∧ field_class f = TeamChoiceField
          ∧ (∀ obj, obj ∈ backing_rows db f → ∃ x, obj = TeamObj x)
          ∧ ∀ x,
              label_from_instance f (TeamObj x)
                = Some (if use_team_code_names t true (user req)
                        then code_name x else short_name x)
              ∧ choice f (TeamObj x)
                = Some (ModelChoiceIteratorValue (team_id x) (TeamObj x),
                        if use_team_code_names t true (user req)
                        then code_name x else short_name x).
Proof.
  intros Hv. destruct (get_formset_spec v req t db) as (fs & Hget & _).
  exists fs. split; [done|]. intros form Hin.
  destruct (final_fields v req t db fs form Hget Hin)
    as (g1 & g2 & H1 & H2 & Hc1 & Hc2 & Hq1 & Hq2 & Hu1 & Hu2).
  assert (∃ f, fields form !! "team" = Some f
            ∧ field_class f = TeamChoiceField
            ∧ use_code_names f = Some (use_team_code_names t true (user req))
            ∧ ∃ key, queryset f = tournament_teams key t)
    as (f & Hf & Hc & Hu & key & Hq).
  { destruct Hv as [-> | ->];
      cbn [view_fields view_field_classes assigned_choices fst snd] in *;
      [exists g2|exists g1]; (split_and!; [done|done|by auto|by eexists]). }
  exists f. split; [done|]. split; [done|]. split.
  - intros obj. rewrite (backing_rows_fresh db f _ Hq).
    intros (x & -> & _)%list_elem_of_fmap. by exists x.
  - intros x. pose proof (team_label f _ x Hc Hu) as Hl.
    split; [done|]. unfold choice. by rewrite Hl.
Qed.

(** C10. In the two institution-conflict views every form offers every
    institution there is, whatever tournament is being edited, while the
    adjudicators or teams it offers are exactly those of the tournament. *)
Theorem institution_choices_unfiltered
    (v : ConflictView) (req : Request) (t : Tournament) (db : DB) :
  v = AdjudicatorInstitutionConflictsView ∨ v = TeamInstitutionConflictsView →
  ∃ fs, get_formset v req t db = Some fs
    ∧ ∀ form, form ∈ forms fs →
        (∃ g, fields form !! "institution" = Some g
              ∧ backing_rows db g = InstitutionObj <$> institutions db)
        ∧ (∃ f, fields form !! (view_fields v).1 = Some f
                ∧ ∀ obj, obj ∈ backing_rows db f ↔
                         obj ∈ first_party_table v db
                         ∧ obj_tournament obj = Some t).
Proof.
  intros Hv. destruct (get_formset_spec v req t db) as (fs & Hget & _).
  exists fs. split; [done|]. intros form Hin.
  destruct (final_fields v req t db fs form Hget Hin)
    as (g1 & g2 & H1 & H2 & _ & _ & Hq1 & Hq2 & _).
  split.
  - exists g2. destruct Hv as [-> | ->]; (split; [exact H2|]);
      exact (backing_rows_fresh db g2
               (λ db, InstitutionObj <$> institutions db) Hq2).
  - exists g1. split; [exact H1|]. intros obj.
    destruct Hv as [-> | ->]; cbn [assigned_choices fst] in Hq1;
      rewrite (backing_rows_fresh db g1 _ Hq1);
      cbn [first_party_table]; rewrite !list_elem_of_fmap;
      setoid_rewrite elem_of_order_by.
    + unfold adjudicator_set. setoid_rewrite list_elem_of_filter.
      split.
      * intros (a & -> & Ht & Ha). split; [by exists a|]. simpl. by f_equal.
      * intros ((a & -> & Ha) & Ht). exists a. simpl in Ht.
        split; [done|]. split; [congruence|done].
    + unfold team_set. setoid_rewrite list_elem_of_filter.
      split.
      * intros (a & -> & Ht & Ha). split; [by exists a|]. simpl. by f_equal.
      * intros ((a & -> & Ha) & Ht). exists a. simpl in Ht.
        split; [done|]. split; [congruence|done].
Qed.

End FormsetFacts.

(* ===================================================================== *)
(** * Flash messages and redirects *)
(* ===================================================================== *)

(** The templates of the source, filled in, read as the specification
    words them. *)
Lemma saved_template (v : ConflictView) (n : nat) :
  {| level := SUCCESS;
     message :=
       percent_count
         (ngettext ("Saved %(count)d " +:+ relation_name v +:+ " conflict.")
            ("Saved %(count)d " +:+ relation_name v +:+ " conflicts.") n) n |}
  = saved_message v n.
Proof.
  unfold saved_message, count_message, ngettext, percent_count. f_equal.
  case_bool_decide; generalize (pretty n); intros c; destruct v; reflexivity.
Qed.

Lemma deleted_template (v : ConflictView) (n : nat) :
  {| level := SUCCESS;
     message :=
       percent_count
         (ngettext ("Deleted %(count)d " +:+ relation_name v +:+ " conflict.")
            ("Deleted %(count)d " +:+ relation_name v +:+ " conflicts.") n) n |}
  = deleted_message v n.
Proof.
  unfold deleted_message, count_message, ngettext, percent_count. f_equal.
  case_bool_decide; generalize (pretty n); intros c; destruct v; reflexivity.
Qed.

Lemma add_message_spec (v : ConflictView) (nsaved ndeleted : nat)
    (msgs : list Message) :
  add_message v nsaved ndeleted msgs
  = msgs ++ expected_messages v nsaved ndeleted.
Proof.
  pose proof (saved_template v nsaved) as Hs.
  pose proof (deleted_template v ndeleted) as Hd.
  unfold expected_messages. rewrite <-Hs, <-Hd.
  unfold add_message, messages_success, no_changes_message, gettext.
  destruct v; cbn [relation_name];
    repeat case_bool_decide; cbn [andb]; try lia;
    rewrite <-?app_assoc, ?app_nil_r; reflexivity.
Qed.

Lemma saved_not_deleted (v : ConflictView) (n m : nat) :
  saved_message v n ≠ deleted_message v m.
Proof. intros [=]. Qed.

Lemma saved_not_no_changes (v : ConflictView) (n : nat) :
  saved_message v n ≠ no_changes_message v.
Proof. intros [=]. Qed.

Lemma deleted_not_no_changes (v : ConflictView) (n : nat) :
  deleted_message v n ≠ no_changes_message v.
Proof. intros [=]. Qed.

Lemma elem_of_expected_messages (v : ConflictView) (nsaved ndeleted : nat)
    (m : Message) :
  m ∈ expected_messages v nsaved ndeleted ↔
    (0 < nsaved ∧ m = saved_message v nsaved)
    ∨ (0 < ndeleted ∧ m = deleted_message v ndeleted)
    ∨ ((nsaved = 0 ∧ ndeleted = 0) ∧ m = no_changes_message v).
Proof.
  unfold expected_messages. rewrite !elem_of_app.
  assert (∀ (P : Prop) `{!Decision P} (x : Message),
            m ∈ (if bool_decide P then [x] else []) ↔ P ∧ m = x) as Hopt.
  { intros P ? x. case_bool_decide.
    - rewrite list_elem_of_singleton. tauto.
    - rewrite elem_of_nil. tauto. }
  by rewrite !Hopt.
Qed.

Lemma expected_messages_saved (v : ConflictView) (nsaved ndeleted : nat) :
  ((∃ n, saved_message v n ∈ expected_messages v nsaved ndeleted) ↔ 0 < nsaved)
  ∧ (0 < nsaved → saved_message v nsaved ∈ expected_messages v nsaved ndeleted).
Proof.
  split; [split|].
  - intros (n & [[? _]|[[_ Hd]|[_ Hn]]]%elem_of_expected_messages); [assumption| |].
    + destruct (saved_not_deleted _ _ _ Hd).
    + destruct (saved_not_no_changes _ _ Hn).
  - intros Hpos. exists nsaved. apply elem_of_expected_messages. left.
    split; [assumption|reflexivity].
  - intros Hpos. apply elem_of_expected_messages. left.
    split; [assumption|reflexivity].
Qed.

Lemma expected_messages_deleted (v : ConflictView) (nsaved ndeleted : nat) :
  ((∃ n, deleted_message v n ∈ expected_messages v nsaved ndeleted) ↔ 0 < ndeleted)
  ∧ (0 < ndeleted →
     deleted_message v ndeleted ∈ expected_messages v nsaved ndeleted).
Proof.
  split; [split|].
  - intros (n & [[_ Hs]|[[? _]|[_ Hn]]]%elem_of_expected_messages); [|assumption|].
    + symmetry in Hs. destruct (saved_not_deleted _ _ _ Hs).
    + destruct (deleted_not_no_changes _ _ Hn).
  - intros Hpos. exists ndeleted. apply elem_of_expected_messages. right. left.
    split; [assumption|reflexivity].
  - intros Hpos. apply elem_of_expected_messages. right. left.
    split; [assumption|reflexivity].
Qed.

Lemma expected_messages_no_changes (v : ConflictView) (nsaved ndeleted : nat) :
  no_changes_message v ∈ expected_messages v nsaved ndeleted
  ↔ nsaved = 0 ∧ ndeleted = 0.
Proof.
  split.
  - intros [[_ Hs]|[[_ Hd]|[? _]]]%elem_of_expected_messages; [| |assumption].
    + symmetry in Hs. destruct (saved_not_no_changes _ _ Hs).
    + symmetry in Hd. destruct (deleted_not_no_changes _ _ Hd).
  - intros Hz. apply elem_of_expected_messages. right. right.
    split; [assumption|reflexivity].
Qed.

Section Submission.
Context `{Collaborators}.

(** A valid submission runs [formset_valid] on the formset the view
    built. *)
Lemma valid_dispatch (v : ConflictView) (req : Request) (t : Tournament)
    (db : DB) (msgs : list Message) :
  method req = POST → valid_submission v req t db = true →
  ∃ formset, get_formset v req t db = Some formset
    ∧ submission_result v req t db
      = save db formset (formset_model v db) (pk_sequence v db)
    ∧ dispatch v req t db msgs = Some (formset_valid v req t db msgs formset).
Proof.
  unfold dispatch, post, valid_submission, submission_result. intros -> Hvalid.
  destruct (get_formset v req t db) as [formset|]; [|done].
  exists formset. cbn [mbind option_bind]. by rewrite Hvalid.
Qed.

(** C3. After a valid submission the rows are persisted and the flash
    messages say what was done: a saved-count message exactly when rows
    were saved, a deleted-count message exactly when rows were deleted, the
    neutral message exactly when neither happened; the counts are those of
    the save, and the singular is used for a count of one. *)
Theorem flash_messages_match_counts
    (v : ConflictView) (req : Request) (t : Tournament) (db : DB)
    (msgs : list Message) :
  method req = POST → valid_submission v req t db = true →
  let st := submission_result v req t db in
  let nsaved := length (saved_instances st) in
  let ndeleted := length (deleted_objects st) in
  ∃ out emitted,
    dispatch v req t db msgs = Some out
    ∧ formset_model v (db_after out) = table st
    ∧ instances out = saved_instances st
    ∧ messages_after out = msgs ++ emitted
    ∧ emitted = expected_messages v nsaved ndeleted
    ∧ ((∃ n, saved_message v n ∈ emitted) ↔ 0 < nsaved)
    ∧ (0 < nsaved → saved_message v nsaved ∈ emitted)
    ∧ ((∃ n, deleted_message v n ∈ emitted) ↔ 0 < ndeleted)
    ∧ (0 < ndeleted → deleted_message v ndeleted ∈ emitted)
    ∧ (no_changes_message v ∈ emitted ↔ nsaved = 0 ∧ ndeleted = 0).
Proof.
  intros Hm Hvalid st nsaved ndeleted.
  destruct (valid_dispatch v req t db msgs Hm Hvalid) as (fs & _ & Hst & ->).
  subst nsaved ndeleted st. rewrite Hst.
  eexists _, (expected_messages v _ _).
  split; [reflexivity|].
  unfold formset_valid, ModelFormSetView_formset_valid.
  set (saved := save db fs (formset_model v db) (pk_sequence v db)).
  destruct (expected_messages_saved v
              (length (saved_instances saved)) (length (deleted_objects saved))).
  destruct (expected_messages_deleted v
              (length (saved_instances saved)) (length (deleted_objects saved))).
  destruct (bool_decide _);
    cbn [db_after instances messages_after];
    rewrite formset_model_written, add_message_spec;
    split_and!; try done; apply expected_messages_no_changes.
Qed.

(** C8. A valid submission redirects to the same view's URL for the
    tournament when the submitted data has the key [add_more], and to the
    tournament's import index otherwise. *)
Theorem redirect_after_valid_submission
    (v : ConflictView) (req : Request) (t : Tournament) (db : DB)
    (msgs : list Message) :
  method req = POST → valid_submission v req t db = true →
  ∃ out, dispatch v req t db msgs = Some out
    ∧ (is_Some (POST_data req !! "add_more") →
       response out = HttpResponseRedirect (reverse_tournament (same_view v) t))
    ∧ (POST_data req !! "add_more" = None →
       response out
       = HttpResponseRedirect (reverse_tournament "importer-simple-index" t)).
Proof.
  intros Hm Hvalid.
  destruct (valid_dispatch v req t db msgs Hm Hvalid) as (fs & _ & _ & ->).
  eexists. split; [reflexivity|].
  unfold formset_valid, ModelFormSetView_formset_valid, redirect_tournament,
    get_success_url.
  case_bool_decide as Hmore; cbn [response]; split; try done.
  intros Hnone. rewrite Hnone in Hmore. by destruct Hmore.
Qed.

End Submission.

(* ===================================================================== *)
(** * The drag-and-drop allocation views add no write of their own *)
(* ===================================================================== *)

Section AllocationFacts.
Import Allocation.
Context `{AllocationCollaborators}.

Lemma read_only_ret {A} (x : A) : read_only (ret x).
Proof. by intros db. Qed.

Lemma read_only_raise {A} : read_only (@raise A).
Proof. by intros db. Qed.

Lemma read_only_select {A} (f : DB → A) : read_only (select f).
Proof. by intros db. Qed.

Lemma read_only_lift {A} (o : option A) : read_only (lift o).
Proof. destruct o; [apply read_only_ret|apply read_only_raise]. Qed.

Lemma read_only_bind {A B} (m : M A) (k : A → M B) :
  read_only m → (∀ x, read_only (k x)) → read_only (bind m k).
Proof.
  intros Hm Hk db. unfold bind. specialize (Hm db).
  destruct (m db) as [[x|] db']; simpl in *; subst; [apply Hk|done].
Qed.

Hypothesis collaborators_only_read : collaborators_read_only.

Ltac read_only_step :=
  first
    [ apply read_only_ret | apply read_only_select | apply read_only_lift
    | apply read_only_raise
    | apply (mixin_get_extra_info_ro collaborators_only_read)
    | apply (pref_ro collaborators_only_read)
    | apply (preferences_getitem_ro collaborators_only_read)
    | apply (ranks_dictionary_ro collaborators_only_read)
    | apply (conflicts_ro collaborators_only_read)
    | apply (history_ro collaborators_only_read)
    | apply (annotate_availability_ro collaborators_only_read)
    | apply (populate_feedback_scores_ro collaborators_only_read)
    | apply (feedback_weight_ro collaborators_only_read)
    | apply (adj_serializer_ro collaborators_only_read)
    | apply (mixin_objects_ro collaborators_only_read)
    | apply (debate_serializer_ro collaborators_only_read)
    | apply (panel_serializer_ro collaborators_only_read)
    | apply read_only_bind; [|intros ?] ].

Lemma read_allocation_settings_read_only (t : Tournament) (keys : list string) :
  ∀ settings, read_only (read_allocation_settings t keys settings).
Proof using collaborators_only_read.
  induction keys as [|key keys IH]; intros settings; simpl.
  - apply read_only_ret.
  - apply read_only_bind; [apply (preferences_getitem_ro collaborators_only_read)|].
    intros v. apply IH.
Qed.

Lemma get_extra_info_read_only (v : AllocationView) (t : Tournament) (round : nat) :
  read_only (get_extra_info v t round).
Proof using collaborators_only_read.
  assert (read_only (Base_get_extra_info t round)) as Hbase.
  { unfold Base_get_extra_info, get_adjudicator_conflicts, get_history_conflicts.
    repeat first [apply read_allocation_settings_read_only | read_only_step]. }
  destruct v; unfold get_extra_info; repeat first [exact Hbase | read_only_step].
Qed.

Lemma get_serialised_allocatable_items_read_only (t : Tournament) (round : nat) :
  read_only (get_serialised_allocatable_items t round).
Proof using collaborators_only_read. unfold get_serialised_allocatable_items. repeat read_only_step. Qed.

Lemma serialised_debates_or_panels_read_only (v : AllocationView)
    (t : Tournament) (round : nat) :
  read_only (serialised_debates_or_panels v t round).
Proof using collaborators_only_read.
  destruct v;
    unfold serialised_debates_or_panels, get_draw_or_panels_objects,
      EditDebateAdjudicatorsView_debates_or_panels_factory,
      EditPanelAdjudicatorsView_debates_or_panels_factory;
    repeat read_only_step.
Qed.

(** The views add no write of their own: handling a GET request to the
    debate-level or the panel-level allocation view leaves the persisted
    state as it found it whenever every collaborator the views call does.
    Whether the collaborators do is decided outside this file. *)
Theorem allocation_get_is_read_only
    (v : AllocationView) (t : Tournament) (round : nat) (db : DB) :
  (handle_get v t round db).2 = db.
Proof using collaborators_only_read.
  revert db. change (read_only (handle_get v t round)).
  unfold handle_get, get_context_data, mixin_get_context_data.
  repeat first
    [ apply get_extra_info_read_only
    | apply get_serialised_allocatable_items_read_only
    | apply serialised_debates_or_panels_read_only
    | read_only_step ].
Qed.

End AllocationFacts.

(* ===================================================================== *)
(** * The small tournament, computed *)
(* ===================================================================== *)

Section Sample.
#[local] Existing Instance sample_collaborators.
#[local] Existing Instance sample_allocation_collaborators.

(** User 2 may not edit: the submission is handled and nothing changes. *)
Lemma no_edit_permission_witness :
  has_permission (user (sample_post 2))
    (edit_permission AdjudicatorTeamConflictsView) 7 = false
  ∧ ∃ out,
      dispatch AdjudicatorTeamConflictsView (sample_post 2) 7 sample_db []
        = Some out
      ∧ db_after out = sample_db ∧ instances out = [].
Proof.
  split; [reflexivity|].
  apply (no_edit_permission_leaves_rows_unchanged
           AdjudicatorTeamConflictsView (sample_post 2) 7 sample_db []).
  reflexivity.
Defined.

(** User 1 may: the same submission updates one row, deletes one and adds
    one. *)
Example edit_permission_changes_rows :
  (λ out, (adjudicatorteamconflicts (db_after out), message <$> messages_after out))
    <$> dispatch AdjudicatorTeamConflictsView (sample_post 1) 7 sample_db []
  = Some ([ {| pk := 2; fk1 := 2; fk2 := 1 |};
            {| pk := 3; fk1 := 3; fk2 := 3 |};
            {| pk := 4; fk1 := 1; fk2 := 2 |} ],
          [ "Saved 2 adjudicator-team conflicts.";
            "Deleted 1 adjudicator-team conflict." ]).
Proof. vm_compute. reflexivity. Qed.

Lemma flash_messages_witness :
  method (sample_post 1) = POST
  ∧ valid_submission AdjudicatorTeamConflictsView (sample_post 1) 7 sample_db
    = true
  ∧ let st := submission_result AdjudicatorTeamConflictsView (sample_post 1) 7
                sample_db in
    let nsaved := length (saved_instances st) in
    let ndeleted := length (deleted_objects st) in
    ∃ out emitted,
      dispatch AdjudicatorTeamConflictsView (sample_post 1) 7 sample_db []
        = Some out
      ∧ formset_model AdjudicatorTeamConflictsView (db_after out) = table st
      ∧ instances out = saved_instances st
      ∧ messages_after out = [] ++ emitted
      ∧ emitted = expected_messages AdjudicatorTeamConflictsView nsaved ndeleted
      ∧ ((∃ n, saved_message AdjudicatorTeamConflictsView n ∈ emitted)
         ↔ 0 < nsaved)
      ∧ (0 < nsaved →
         saved_message AdjudicatorTeamConflictsView nsaved ∈ emitted)
      ∧ ((∃ n, deleted_message AdjudicatorTeamConflictsView n ∈ emitted)
         ↔ 0 < ndeleted)
      ∧ (0 < ndeleted →
         deleted_message AdjudicatorTeamConflictsView ndeleted ∈ emitted)
      ∧ (no_changes_message AdjudicatorTeamConflictsView ∈ emitted
         ↔ nsaved = 0 ∧ ndeleted = 0).
Proof.
  split; [reflexivity|]. split; [vm_compute; reflexivity|].
  apply (flash_messages_match_counts
           AdjudicatorTeamConflictsView (sample_post 1) 7 sample_db []).
  - reflexivity.
  - vm_compute; reflexivity.
Defined.

Lemma redirect_witness :
  method (sample_post 1) = POST
  ∧ valid_submission AdjudicatorTeamConflictsView (sample_post 1) 7 sample_db
    = true
  ∧ ∃ out,
      dispatch AdjudicatorTeamConflictsView (sample_post 1) 7 sample_db []
        = Some out
      ∧ (is_Some (POST_data (sample_post 1) !! "add_more") →
         response out
         = HttpResponseRedirect
             (reverse_tournament (same_view AdjudicatorTeamConflictsView) 7))
      ∧ (POST_data (sample_post 1) !! "add_more" = None →
         response out
         = HttpResponseRedirect (reverse_tournament "importer-simple-index" 7)).
Proof.
  split; [reflexivity|]. split; [vm_compute; reflexivity|].
  apply (redirect_after_valid_submission
           AdjudicatorTeamConflictsView (sample_post 1) 7 sample_db []).
  - reflexivity.
  - vm_compute; reflexivity.
Defined.

(** The two redirect targets, computed. *)
Example redirect_targets :
  response <$> dispatch AdjudicatorTeamConflictsView (sample_post 1) 7 sample_db []
    = Some (HttpResponseRedirect "/7/adjallocation-conflicts-adj-team/")
  ∧ response <$>
      dispatch AdjudicatorTeamConflictsView
        {| method := POST; user := 1;
           POST_data := delete "add_more" sample_submission |} 7 sample_db []
    = Some (HttpResponseRedirect "/7/importer-simple-index/").
Proof. split; vm_compute; reflexivity. Qed.

(** Three iterations of one field while an adjudicator disappears from
    the database: each yields the blank option once and the rows first
    fetched. *)
Lemma dedup_iterator_witness :
  Forall (λ obj, is_Some (label_from_instance sample_field obj))
    (backing_rows sample_db sample_field)
  ∧ 2 < length [sample_db; sample_db_later; sample_db_later]
  ∧ ∃ out,
      iterations [sample_db; sample_db_later; sample_db_later] sample_field !! 2
        = Some (Some out)
      ∧ match empty_label sample_field with
        | Some l =>
            ∃ items, out = (EmptyValue, l) :: items
              ∧ length (filter (λ c, is_blank c = true) out) = 1
              ∧ Forall2 (λ obj c, choice sample_field obj = Some c)
                  (backing_rows sample_db sample_field) items
        | None =>
            filter (λ c, is_blank c = true) out = []
            ∧ Forall2 (λ obj c, choice sample_field obj = Some c)
                (backing_rows sample_db sample_field) out
        end.
Proof.
  assert (Forall (λ obj, is_Some (label_from_instance sample_field obj))
            (backing_rows sample_db sample_field)) as Hlbl.
  { apply Forall_forall. intros obj _. by eexists. }
  split; [exact Hlbl|]. split; [simpl; lia|].
  apply (dedup_iterator_blank_once sample_field sample_db
           [sample_db_later; sample_db_later] 2 Hlbl).
  simpl; lia.
Defined.

Example dedup_iterations_computed :
  (λ o : option (list Choice), (λ out : list Choice, snd <$> out) <$> o)
    <$> iterations [sample_db; sample_db_later; sample_db_later] sample_field
  = [ Some ["---------"; "2"; "1"]; Some ["---------"; "2"; "1"];
      Some ["---------"; "2"; "1"] ].
Proof. vm_compute. reflexivity. Qed.

Lemma team_label_witness :
  (AdjudicatorTeamConflictsView = AdjudicatorTeamConflictsView
   ∨ AdjudicatorTeamConflictsView = TeamInstitutionConflictsView)
  ∧ ∃ fs,
      get_formset AdjudicatorTeamConflictsView (sample_get 1) 7 sample_db
        = Some fs
      ∧ ∀ form, form ∈ forms fs →
          ∃ f, fields form !! "team" = Some f
            ∧ field_class f = TeamChoiceField
            ∧ (∀ obj, obj ∈ backing_rows sample_db f → ∃ x, obj = TeamObj x)
            ∧ ∀ x,
                label_from_instance f (TeamObj x)
                  = Some (if use_team_code_names 7 true (user (sample_get 1))
                          then code_name x else short_name x)
                ∧ choice f (TeamObj x)
                  = Some (ModelChoiceIteratorValue (team_id x) (TeamObj x),
                          if use_team_code_names 7 true (user (sample_get 1))
                          then code_name x else short_name x).
Proof.
  split; [left; reflexivity|].
  apply (team_label_follows_preference
           AdjudicatorTeamConflictsView (sample_get 1) 7 sample_db).
  left; reflexivity.
Defined.

Lemma institution_choices_witness :
  (TeamInstitutionConflictsView = AdjudicatorInstitutionConflictsView
   ∨ TeamInstitutionConflictsView = TeamInstitutionConflictsView)
  ∧ ∃ fs,
      get_formset TeamInstitutionConflictsView (sample_get 1) 7 sample_db
        = Some fs
      ∧ ∀ form, form ∈ forms fs →
          (∃ g, fields form !! "institution" = Some g
                ∧ backing_rows sample_db g
                  = InstitutionObj <$> institutions sample_db)
          ∧ (∃ f, fields form !! (view_fields TeamInstitutionConflictsView).1
                    = Some f
                  ∧ ∀ obj, obj ∈ backing_rows sample_db f ↔
                           obj ∈ first_party_table TeamInstitutionConflictsView
                                   sample_db
                           ∧ obj_tournament obj = Some 7).
Proof.
  split; [right; reflexivity|].
  apply (institution_choices_unfiltered
           TeamInstitutionConflictsView (sample_get 1) 7 sample_db).
  right; reflexivity.
Defined.

(** The team options of the team-institution view in tournament 7, where
    code names are shown: labelled by code name, in short-name order. *)
Example team_institution_options_computed :
  (λ fs, (λ form,
            (λ f, (λ out : list Choice, snd <$> out)
                    <$> (DedupModelChoiceIterator__iter__ sample_db f).2)
              <$> fields form !! "team") <$> take 1 (forms fs))
    <$> get_formset TeamInstitutionConflictsView (sample_get 1) 7 sample_db
  = Some [Some (Some ["---------"; "Zebra"; "Apple"])].
Proof. vm_compute. reflexivity. Qed.

(** The adjudicator-team view, for contrast, offers the same teams in
    code-name order. *)
Example adjudicator_team_options_computed :
  (λ fs, (λ form,
            (λ f, (λ out : list Choice, snd <$> out)
                    <$> (DedupModelChoiceIterator__iter__ sample_db f).2)
              <$> fields form !! "team") <$> take 1 (forms fs))
    <$> get_formset AdjudicatorTeamConflictsView (sample_get 1) 7 sample_db
  = Some [Some (Some ["---------"; "Apple"; "Zebra"])].
Proof. vm_compute. reflexivity. Qed.

(** What the permission gate offers on a GET request: two rows and ten
    blank forms with a deletion checkbox to the editor, the two rows with
    every field disabled to anyone else. *)
Example gate_on_get_computed :
  (λ fs, (length (forms fs),
          (λ form, bool_decide (is_Some (fields form !! "DELETE")))
            <$> take 1 (forms fs),
          (λ form, (disabled <$> fields form) !! "team") <$> take 1 (forms fs)))
    <$> get_formset AdjudicatorTeamConflictsView (sample_get 1) 7 sample_db
  = Some (12, [true], [Some false])
  ∧ (λ fs, (length (forms fs),
            (λ form, bool_decide (is_Some (fields form !! "DELETE")))
              <$> take 1 (forms fs),
            (λ form, (disabled <$> fields form) !! "team") <$> take 1 (forms fs)))
      <$> get_formset AdjudicatorTeamConflictsView (sample_get 2) 7 sample_db
    = Some (2, [false], [Some true]).
Proof. split; vm_compute; reflexivity. Qed.

(** C4 as stated fails.  With 995 editable rows on record the editor's
    page has 1000 forms on a GET request, so five blank rows and not ten,
    although [extra] is 10; and on a POST request the forms are the three
    the submission declares, one of them blank. *)
Lemma ten_blank_rows_counterexample :
  has_permission (user (sample_get 1))
    (edit_permission AdjudicatorTeamConflictsView) 7 = true
  ∧ length (get_formset_queryset AdjudicatorTeamConflictsView 7 crowded_db)
    = 995
  ∧ formset_shape
      <$> get_formset AdjudicatorTeamConflictsView (sample_get 1) 7 crowded_db
    = Some (10, 1000, 5)
  ∧ formset_shape
      <$> get_formset AdjudicatorTeamConflictsView (sample_post 1) 7 sample_db
    = Some (10, 3, 1).
Proof. split_and!; vm_compute; reflexivity. Qed.

(** A key is not issued twice: after tournament 7 lost its rows, a new
    adjudicator-team conflict takes the key after the last one issued. *)
Example new_row_takes_next_key :
  (λ out, adjudicatorteamconflicts (db_after out))
    <$> dispatch AdjudicatorTeamConflictsView
          {| method := POST; user := 1;
             POST_data :=
               list_to_map
                 [ ("form-TOTAL_FORMS", " 1"); ("form-INITIAL_FORMS", "0");
                   ("form-0-adjudicator", "2"); ("form-0-team", "1") ] |}
          7 sample_db_later []
  = Some [ {| pk := 4; fk1 := 2; fk2 := 1 |} ].
Proof. vm_compute. reflexivity. Qed.

Lemma sample_allocation_collaborators_read_only :
  Allocation.collaborators_read_only.
Proof. by split. Defined.

Lemma allocation_get_witness :
  Allocation.collaborators_read_only
  ∧ (Allocation.handle_get Allocation.EditPanelAdjudicatorsView 7 1 sample_db).2
    = sample_db.
Proof.
  split; [exact sample_allocation_collaborators_read_only|].
  apply (allocation_get_is_read_only
           sample_allocation_collaborators_read_only
           Allocation.EditPanelAdjudicatorsView 7 1 sample_db).
Defined.

End Sample.

(** On the small tournament the panel view renders its page. *)
Example allocation_get_renders :
  (λ page : string * list (string * Allocation.JSON), (page.1, page.2.*1))
    <$> (Allocation.handle_get (H := sample_allocation_collaborators)
           Allocation.EditPanelAdjudicatorsView 7 1 sample_db).1
  = Some ("edit_panel_adjudicators.html",
          ["vueDebatesOrPanelAdjudicators"; "vueData"]).
Proof. vm_compute. reflexivity. Qed.

(* ===================================================================== *)
(** * Further properties of the conflict views *)
(* ===================================================================== *)

(** X1. [add_message] is never silent and never says more than two
    things: it appends one or two messages to those already queued, two
    exactly when rows were both saved and deleted, the saved count before
    the deleted count, and the neutral message only ever on its own. *)
Theorem add_message_one_or_two
    (v : ConflictView) (nsaved ndeleted : nat) (msgs : list Message) :
  ∃ emitted,
    add_message v nsaved ndeleted msgs = msgs ++ emitted
    ∧ (1 ≤ length emitted ≤ 2)%nat
    ∧ (length emitted = 2 ↔ 0 < nsaved ∧ 0 < ndeleted)
    ∧ (0 < nsaved → 0 < ndeleted →
       emitted = [saved_message v nsaved; deleted_message v ndeleted])
    ∧ (no_changes_message v ∈ emitted → emitted = [no_changes_message v]).
Proof.
  exists (expected_messages v nsaved ndeleted).
  split; [apply add_message_spec|].
  assert (∀ (b : bool) (m : Message), length (if b then [m] else []) = if b then 1 else 0)
    as Hlen by (by intros []).
  split; [|split; [|split]].
  - unfold expected_messages. rewrite !length_app, !Hlen.
    repeat case_bool_decide; lia.
  - unfold expected_messages. rewrite !length_app, !Hlen.
    repeat case_bool_decide; lia.
  - intros Hs Hd. unfold expected_messages.
    rewrite !bool_decide_true by done.
    rewrite bool_decide_false by lia. reflexivity.
  - intros [-> ->]%expected_messages_no_changes. unfold expected_messages.
    rewrite !bool_decide_false by lia. rewrite bool_decide_true by done.
    reflexivity.
Qed.

Section MoreFormsetFacts.
Context `{Collaborators}.

(** The permission only decides [extra] and [can_delete]: every other
    keyword argument is the one the view class declares, so the fields of
    the forms and their classes are the same for every user, and the dict
    has exactly the four keys. *)
Lemma factory_kwargs_touch_two_keys
    (v : ConflictView) (req : Request) (t : Tournament) :
  (∀ k, k ≠ "extra" → k ≠ "can_delete" →
        get_formset_factory_kwargs v req t !! k = formset_factory_kwargs v !! k)
  ∧ get_formset_factory_kwargs v req t !! "fields"
    = Some (KFields [(view_fields v).1; (view_fields v).2])
  ∧ dom (get_formset_factory_kwargs v req t)
    = ({[ "fields"; "field_classes"; "extra"; "can_delete" ]} : gset string).
Proof.
  unfold get_formset_factory_kwargs, ModelFormSetView_get_formset_factory_kwargs.
  split; [|split].
  - intros k Hk1 Hk2. by rewrite !lookup_insert_ne.
  - rewrite !lookup_insert_ne by done. by destruct v.
  - rewrite !dom_insert_L.
    assert (dom (formset_factory_kwargs v)
            = ({[ "fields"; "field_classes" ]} : gset string)) as ->.
    { destruct v; unfold formset_factory_kwargs;
        rewrite !dom_insert_L, dom_empty_L; set_solver. }
    set_solver.
Qed.

Lemma retouched_lookup (form form' : Form) (name : string) (f' : Field) :
  retouched form form' → fields form' !! name = Some f' →
  ∃ f, fields form !! name = Some f ∧ same_flags f f'.
Proof.
  intros (_&_&_&_&_&_&Hr) Hf'. specialize (Hr name). rewrite Hf' in Hr.
  inversion Hr as [f ? Hff Hf|]; subst. by exists f.
Qed.

(** X2. The loops of the four [get_formset] methods only hand choices to
    fields: the formset keeps its class, its binding and its rows, it has
    as many forms as before, and every form keeps its prefix, data,
    instance and initial values, and every field its disabled and required
    flags, its class and its blank label. *)
Theorem get_formset_only_retouches
    (v : ConflictView) (req : Request) (t : Tournament) (db : DB) :
  let base := BaseAdjudicatorConflictsView_get_formset v req t db in
  ∃ fs, get_formset v req t db = Some fs
    ∧ formset_class fs = formset_class base
    ∧ is_bound fs = is_bound base
    ∧ data fs = data base
    ∧ get_queryset fs = get_queryset base
    ∧ length (forms fs) = length (forms base)
    ∧ Forall2 retouched (forms base) (forms fs).
Proof.
  intros base.
  destruct (get_formset_spec v req t db) as (fs & Hget & _ & _ & _ & HF).
  fold base in HF. exists fs. split; [exact Hget|].
  rewrite get_formset_unfold in Hget. fold base in Hget.
  apply bind_Some in Hget as (forms' & _ & [= <-]).
  cbn [set_forms formset_class is_bound data get_queryset forms] in *.
  split_and!; try done.
  - symmetry. by eapply Forall2_length.
  - eapply Forall2_impl; [exact HF|]. intros form form' Hb.
    exact (loop_body_retouched v req t form form' Hb).
Qed.

Lemma construct_form_enabled (cls : FormSetClass) (bound : bool)
    (d : gmap string string) (rows : list Conflict) (n0 : Z) (i : nat)
    (name : string) (f : Field) :
  fields (_construct_form cls bound d rows n0 i) !! name = Some f →
  disabled f = false.
Proof.
  unfold _construct_form. cbv zeta. cbn [fields].
  assert (∀ g, (<["id" := pk_field rows (bool_decide (Z.of_nat i < n0)%Z)]>
                 (list_to_map ((λ n, (n, model_field cls n)) <$> fc_fields cls)
                  : gmap string Field)) !! name = Some g →
               disabled g = false) as Hbase.
  { intros g [[_ <-]|[_ Hg]]%lookup_insert_Some; [done|].
    apply elem_of_list_to_map_2, list_elem_of_fmap in Hg as (n & [= -> ->] & _).
    done. }
  destruct (can_delete cls); [|apply Hbase].
  intros [[_ <-]|[_ Hg]]%lookup_insert_Some; [done|]. by apply Hbase.
Qed.

(** X3. The view never disables a field for a user who may edit: with the
    edit permission every field of every form of the formset is enabled. *)
Theorem editor_fields_enabled
    (v : ConflictView) (req : Request) (t : Tournament) (db : DB) :
  has_permission (user req) (edit_permission v) t = true →
  ∃ fs, get_formset v req t db = Some fs
    ∧ ∀ form name f, form ∈ forms fs → fields form !! name = Some f →
        disabled f = false.
Proof.
  intros Hperm. change (edit_permission v) with (get_edit_permission v) in Hperm.
  destruct (get_formset_spec v req t db) as (fs & Hget & _).
  exists fs. split; [exact Hget|]. intros form' name f' Hin Hf'.
  destruct (get_formset_forms _ _ _ _ _ _ Hget Hin) as (form & Hform & Hr & _).
  destruct (retouched_lookup _ _ _ _ Hr Hf') as (f & Hf & (-> & _)).
  unfold BaseAdjudicatorConflictsView_get_formset in Hform.
  rewrite Hperm in Hform. cbn [negb] in Hform.
  apply ModelFormSetView_forms in Hform as (bound & d & rows & n0 & i & ->).
  by eapply construct_form_enabled.
Qed.

(** X4. In every view with an adjudicator field, each such field of each
    form offers exactly the adjudicators of the current tournament, in
    ascending order of name and labelled with their string form; in the
    adjudicator-adjudicator view both fields offer the same list. *)
Theorem adjudicator_options_sorted_by_name
    (v : ConflictView) (name : string) (req : Request) (t : Tournament)
    (db : DB) :
  (v, name) ∈ [ (AdjudicatorTeamConflictsView, "adjudicator");
                (AdjudicatorAdjudicatorConflictsView, "adjudicator1");
                (AdjudicatorAdjudicatorConflictsView, "adjudicator2");
                (AdjudicatorInstitutionConflictsView, "adjudicator") ] →
  ∃ fs, get_formset v req t db = Some fs
    ∧ ∀ form, form ∈ forms fs →
        ∃ f offered,
          fields form !! name = Some f
          ∧ backing_rows db f = AdjudicatorObj <$> offered
          ∧ offered = order_by adj_name (adjudicator_set t db)
          ∧ StronglySorted (key_le adj_name) offered
          ∧ offered ≡ₚ filter (λ a, adj_tournament a = t) (adjudicators db)
          ∧ ∀ obj, label_from_instance f obj = Some (obj_str obj).
Proof.
  intros Hv. destruct (get_formset_spec v req t db) as (fs & Hget & _).
  exists fs. split; [exact Hget|]. intros form Hin.
  destruct (final_fields v req t db fs form Hget Hin)
    as (g1 & g2 & H1 & H2 & Hc1 & Hc2 & Hq1 & Hq2 & _).
  assert (∃ f, fields form !! name = Some f
               ∧ field_class f = DedupModelChoiceField
               ∧ queryset f = tournament_adjudicators t) as (f & Hf & Hc & Hq).
  { repeat (apply elem_of_cons in Hv as [[= -> ->]|Hv]);
      [exists g1|exists g1|exists g2|exists g1|by apply elem_of_nil in Hv];
      by split_and!. }
  exists f, (order_by adj_name (adjudicator_set t db)).
  split; [exact Hf|].
  split; [exact (backing_rows_fresh db f
                   (λ db, AdjudicatorObj <$> order_by adj_name (adjudicator_set t db))
                   Hq)|].
  split; [done|]. split; [apply order_by_sorted|]. split; [apply order_by_perm|].
  intros obj. unfold label_from_instance. by rewrite Hc.
Qed.

(** X5. In the adjudicator-team view the team options are exactly the teams
    of the current tournament, in ascending order of code name when the
    code-name preference is on and of short name when it is off: here the
    order follows the labels. *)
Theorem adjudicator_team_options_follow_preference
    (req : Request) (t : Tournament) (db : DB) :
  let ucn := use_team_code_names t true (user req) in
  ∃ fs, get_formset AdjudicatorTeamConflictsView req t db = Some fs
    ∧ ∀ form, form ∈ forms fs →
        ∃ f offered,
          fields form !! "team" = Some f
          ∧ backing_rows db f = TeamObj <$> offered
          ∧ offered ≡ₚ filter (λ x, team_tournament x = t) (teams db)
          ∧ StronglySorted
              (key_le (if ucn then code_name else short_name)) offered
          ∧ ∀ x, label_from_instance f (TeamObj x)
                 = Some ((if ucn then code_name else short_name) x).
Proof.
  intros ucn.
  destruct (get_formset_spec AdjudicatorTeamConflictsView req t db)
    as (fs & Hget & _).
  exists fs. split; [exact Hget|]. intros form Hin.
  destruct (final_fields _ req t db fs form Hget Hin)
    as (_ & g2 & _ & H2 & _ & Hc2 & _ & Hq2 & _ & Hu2).
  cbn [view_fields view_field_classes assigned_choices fst snd] in *.
  fold ucn in Hq2, Hu2.
  exists g2, (order_by (if ucn then code_name else short_name) (team_set t db)).
  split; [exact H2|].
  split; [exact (backing_rows_fresh db g2
                   (λ db, TeamObj <$>
                      order_by (if ucn then code_name else short_name)
                        (team_set t db)) Hq2)|].
  split; [apply order_by_perm|]. split; [apply order_by_sorted|].
  intros x. rewrite (team_label g2 ucn x Hc2 (Hu2 Hc2)). by destruct ucn.
Qed.

(** X6. No conflict row is editable under two tournaments: a row among the
    editable rows of a view for one tournament is among those for another
    only if the two tournaments are the same. *)
Theorem editable_rows_belong_to_one_tournament
    (v : ConflictView) (t t' : Tournament) (db : DB) (c : Conflict) :
  c ∈ get_formset_queryset v t db →
  c ∈ get_formset_queryset v t' db →
  t = t'.
Proof.
  rewrite !get_formset_queryset_unfold, !elem_of_order_by, !list_elem_of_filter.
  intros [Ht _] [Ht' _]. congruence.
Qed.

(** X8. The page a GET request renders agrees with the permission gate:
    it is the conflict editing template with the view's save text, its
    [can_edit] flag is the permission itself, the formset shown allows
    deletion exactly when [can_edit] is set, and nothing is persisted or
    queued as a message. *)
Theorem page_context_agrees_with_gate
    (v : ConflictView) (req : Request) (t : Tournament) (db : DB)
    (msgs : list Message) :
  method req = GET →
  ∃ fs, get_formset v req t db = Some fs
    ∧ dispatch v req t db msgs
      = Some {| response :=
                  TemplateResponse "edit_conflicts.html" (save_text v)
                    (has_permission (user req) (edit_permission v) t) fs;
                db_after := db; messages_after := msgs; instances := [] |}
    ∧ can_delete (formset_class fs)
      = has_permission (user req) (edit_permission v) t
    ∧ (has_permission (user req) (edit_permission v) t = false →
       all_fields_disabled fs).
Proof.
  intros Hm. destruct (get_formset_spec v req t db) as (fs & Hget & Hcls & _).
  exists fs. split; [exact Hget|]. split; [|split].
  - unfold dispatch, get. by rewrite Hm, Hget.
  - rewrite Hcls. by destruct (factory_of_view v req t) as (_ & _ & _ & -> & _).
  - intros Hperm. by eapply get_formset_all_disabled.
Qed.

End MoreFormsetFacts.

(** X9. The four view classes never share a name or a permission: their
    edit permissions, their view permissions and their [same_view] URL
    names are pairwise different, and no view's edit permission is any
    view's view permission. *)
Theorem view_attributes_distinct (v w : ConflictView) :
  (edit_permission v = edit_permission w → v = w)
  ∧ (view_permission v = view_permission w → v = w)
  ∧ (same_view v = same_view w → v = w)
  ∧ edit_permission v ≠ view_permission w.
Proof. destruct v, w; split_and!; (done || by intros [=]). Qed.

(* ===================================================================== *)
(** * Further properties of the deduplicating choice field *)
(* ===================================================================== *)

Section MoreIteratorFacts.
Context `{Collaborators}.

(** X10. One iteration settles the field: afterwards its queryset holds
    the rows it yielded, and iterating again, against whatever the
    database has become, neither changes the field nor yields anything
    else. *)
Theorem dedup_iteration_settles (f : Field) (db db' : DB) :
  let f1 := (DedupModelChoiceIterator__iter__ db f).1 in
  _result_cache (queryset f1) = Some (backing_rows db f)
  ∧ (DedupModelChoiceIterator__iter__ db' f1).1 = f1
  ∧ (DedupModelChoiceIterator__iter__ db' f1).2
    = (DedupModelChoiceIterator__iter__ db f).2.
Proof.
  unfold DedupModelChoiceIterator__iter__, backing_rows, fetch_all.
  destruct f as [cls req dis el [q [rows|]] ucn]; by cbn.
Qed.

(** X11. A team field whose [use_code_names] was never set cannot label a
    row: iterating its options fails as soon as the queryset has a row,
    and yields just the blank option when the queryset is empty. *)
Theorem team_field_without_preference (f : Field) (db : DB) :
  field_class f = TeamChoiceField → use_code_names f = None →
  (DedupModelChoiceIterator__iter__ db f).2
  = match backing_rows db f with
    | [] => Some (match empty_label f with
                  | Some l => [(EmptyValue, l)]
                  | None => []
                  end)
    | _ :: _ => None
    end.
Proof.
  intros Hc Hu. destruct (iter_step db f) as (_ & _ & _ & ->).
  destruct (backing_rows db f) as [|obj rows]; cbn.
  - by rewrite app_nil_r.
  - unfold choice, label_from_instance. by rewrite Hc, Hu.
Qed.

Import Shared.

Lemma iter_queryset (db : DB) (f : Field) :
  queryset (DedupModelChoiceIterator__iter__ db f).1
  = (fetch_all db (queryset f)).1.
Proof.
  unfold DedupModelChoiceIterator__iter__.
  by destruct (fetch_all db (queryset f)).
Qed.

Lemma iter_output_cached (db : DB) (qs : QuerySet) (a : Field) :
  (DedupModelChoiceIterator__iter__ db (_set_queryset (fetch_all db qs).1 a)).2
  = (DedupModelChoiceIterator__iter__ db (_set_queryset qs a)).2.
Proof.
  unfold DedupModelChoiceIterator__iter__, fetch_all.
  destruct a as [cls req dis el q ucn], qs as [q' [rows|]]; by cbn.
Qed.

Lemma iter_objs_shared (db : DB) (l : nat) (fos : list FieldObj) :
  ∀ (h : Heap) (qs : QuerySet),
    querysets h !! l = Some qs →
    Forall (λ fo, _queryset fo = l) fos →
    hits (iter_objs db h fos).1
    = hits h + match fos, _result_cache qs with
               | _ :: _, None => 1
               | _, _ => 0
               end
    ∧ (∀ l', l' ≠ l →
         querysets (iter_objs db h fos).1 !! l' = querysets h !! l')
    ∧ querysets (iter_objs db h fos).1 !! l
      = Some (match fos with [] => qs | _ :: _ => (fetch_all db qs).1 end)
    ∧ Forall2
        (λ fo o,
           o = Some (DedupModelChoiceIterator__iter__ db
                       (_set_queryset qs (attrs fo))).2)
        fos (iter_objs db h fos).2.
Proof.
  induction fos as [|fo fos IH]; intros h qs Hl Hall.
  - cbn. split_and!; [lia|done|done|constructor].
  - apply Forall_cons in Hall as [Hfo Hall].
    cbn [iter_objs]. unfold iter_obj, _get_queryset. rewrite Hfo, Hl.
    pose proof (iter_queryset db (_set_queryset qs (attrs fo))) as Hq.
    destruct (DedupModelChoiceIterator__iter__ db (_set_queryset qs (attrs fo)))
      as [f' out] eqn:Hit. cbn [fst snd] in Hq.
    assert (queryset f' = (fetch_all db qs).1) as Hq' by (by rewrite Hq).
    assert (∃ rows, _result_cache (queryset f') = Some rows) as [rows Hcached].
    { rewrite Hq'. unfold fetch_all.
      destruct (_result_cache qs) eqn:E; cbn; rewrite ?E; by eexists. }
    assert ((fetch_all db (queryset f')).1 = queryset f') as Hfix.
    { unfold fetch_all. by rewrite Hcached. }
    destruct (IH {| querysets := <[l := queryset f']> (querysets h);
                    hits := hits h + match _result_cache qs with
                                     | Some _ => 0 | None => 1 end |}
                 (queryset f')) as (Hhits & Hother & Hsame & Hout);
      [apply lookup_insert_eq|done|].
    destruct (iter_objs db _ fos) as [h2 outs]. cbn [fst snd hits querysets] in *.
    split_and!.
    + rewrite Hhits, Hcached. destruct fos, (_result_cache qs); lia.
    + intros l' Hl'. rewrite Hother by done. by rewrite lookup_insert_ne.
    + rewrite Hsame. f_equal. destruct fos; [done|]. by rewrite Hfix.
    + constructor; [by rewrite Hit|].
      eapply Forall2_impl; [exact Hout|]. intros fo' o ->. f_equal.
      rewrite Hq'. apply iter_output_cached.
Qed.

(** X12. Field objects that share one queryset object (copies made by
    [__deepcopy__], or fields assigned the same queryset) cost one trip to
    the database between them: iterating the options of all of them asks
    the database once if the queryset was not evaluated yet and not at all
    if it was, leaves the shared queryset evaluated, touches no other
    queryset, and gives every field the options it would have got alone. *)
Theorem shared_queryset_hits_once
    (db : DB) (h : Heap) (l : nat) (qs : QuerySet) (fos : list FieldObj) :
  querysets h !! l = Some qs →
  Forall (λ fo, _queryset fo = l) fos →
  fos ≠ [] →
  hits (iter_objs db h fos).1
  = hits h + match _result_cache qs with Some _ => 0 | None => 1 end
  ∧ (∃ qs', querysets (iter_objs db h fos).1 !! l = Some qs'
            ∧ _result_cache qs' = Some (fetch_all db qs).2)
  ∧ (∀ l', l' ≠ l →
       querysets (iter_objs db h fos).1 !! l' = querysets h !! l')
  ∧ Forall2
      (λ fo o,
         o = Some (DedupModelChoiceIterator__iter__ db
                     (_set_queryset qs (attrs fo))).2)
      fos (iter_objs db h fos).2
  ∧ (∀ fo, _queryset (__deepcopy__ fo) = _queryset fo
           ∧ attrs (__deepcopy__ fo) = attrs fo).
Proof.
  intros Hl Hall Hne.
  destruct (iter_objs_shared db l fos h qs Hl Hall)
    as (Hhits & Hother & Hsame & Hout).
  split_and!; try done.
  - rewrite Hhits. destruct fos; [done|]. by destruct (_result_cache qs).
  - exists (fetch_all db qs).1. split; [by destruct fos|].
    unfold fetch_all. by destruct (_result_cache qs) eqn:E; cbn; rewrite ?E.
Qed.

End MoreIteratorFacts.

(* ===================================================================== *)
(** * Further properties of the allocation views *)
(* ===================================================================== *)

Section MoreAllocationFacts.
Import Allocation.
Context `{AllocationCollaborators}.

Lemma bind_eval {A B} (m : M A) (k : A → M B) (db db1 : DB) (x : A) :
  m db = (Some x, db1) → bind m k db = k x db1.
Proof. unfold bind. by intros ->. Qed.

Lemma bind_raises {A B} (m : M A) (k : A → M B) (db db1 : DB) :
  m db = (None, db1) → bind m k db = (None, db1).
Proof. unfold bind. by intros ->. Qed.

Lemma bind_Some_inv {A B} (m : M A) (k : A → M B) (db db2 : DB) (y : B) :
  bind m k db = (Some y, db2) →
  ∃ x db1, m db = (Some x, db1) ∧ k x db1 = (Some y, db2).
Proof.
  unfold bind. destruct (m db) as [[x|] db1]; [|done]. intros Hk. by exists x, db1.
Qed.

Lemma ret_inv {A} (x y : A) (db db' : DB) :
  ret x db = (Some y, db') → y = x ∧ db' = db.
Proof. by intros [= -> ->]. Qed.

Lemma select_inv {A} (f : DB → A) (y : A) (db db' : DB) :
  select f db = (Some y, db') → y = f db ∧ db' = db.
Proof. by intros [= <- <-]. Qed.

Lemma lift_inv {A} (o : option A) (y : A) (db db' : DB) :
  lift o db = (Some y, db') → o = Some y ∧ db' = db.
Proof. destruct o; [by intros [= -> ->]|done]. Qed.

(** Python dicts: what was set is what is read, other keys are as before,
    and a new key goes last. *)
Lemma dict_get_set_eq (k : string) (v : JSON) (o : list (string * JSON)) :
  dict_get k (dict_set k v o) = Some v.
Proof.
  induction o as [|[k' v'] o IH]; cbn.
  - by rewrite bool_decide_true.
  - case_bool_decide; cbn; [by rewrite bool_decide_true|].
    by rewrite bool_decide_false.
Qed.

Lemma dict_get_set_ne (k k' : string) (v : JSON) (o : list (string * JSON)) :
  k ≠ k' → dict_get k' (dict_set k v o) = dict_get k' o.
Proof.
  intros Hne. induction o as [|[k0 v0] o IH]; cbn.
  - by rewrite bool_decide_false.
  - case_bool_decide as Hk0; cbn.
    + subst k0. by rewrite !bool_decide_false.
    + by rewrite IH.
Qed.

Lemma dict_get_None_keys (k : string) (o : list (string * JSON)) :
  dict_get k o = None ↔ k ∉ o.*1.
Proof.
  induction o as [|[k0 v0] o IH]; cbn.
  - split; [intros _; apply not_elem_of_nil|done].
  - rewrite not_elem_of_cons. case_bool_decide as Hk.
    + split; [done|]. intros [Hne _]. by destruct Hne.
    + rewrite IH. split; [by split|by intros [_ ?]].
Qed.

Lemma dict_set_keys_fresh (k : string) (v : JSON) (o : list (string * JSON)) :
  k ∉ o.*1 → (dict_set k v o).*1 = o.*1 ++ [k].
Proof.
  induction o as [|[k0 v0] o IH]; cbn; [done|].
  intros [Hne Hnin]%not_elem_of_cons.
  rewrite bool_decide_false by done. cbn. by rewrite IH.
Qed.

Lemma dict_set2_Some (k1 k2 : string) (v : JSON) (info info' : list (string * JSON)) :
  dict_set2 k1 k2 v info = Some info' →
  ∃ inner, dict_get k1 info = Some (JObj inner)
           ∧ info' = dict_set k1 (JObj (dict_set k2 v inner)) info.
Proof.
  unfold dict_set2. destruct (dict_get k1 info) as [[]|]; try done.
  intros [= <-]. by eexists.
Qed.

(** The loop over the preference keys adds them in order. *)
Lemma read_allocation_settings_keys (t : Tournament) (keys : list string) :
  ∀ settings out db db',
    NoDup (settings.*1 ++ keys) →
    read_allocation_settings t keys settings db = (Some out, db') →
    out.*1 = settings.*1 ++ keys.
Proof.
  induction keys as [|key keys IH]; intros settings out db db' Hnd Hrun.
  - apply ret_inv in Hrun as [-> _]. by rewrite app_nil_r.
  - cbn [read_allocation_settings] in Hrun.
    apply bind_Some_inv in Hrun as (v & db1 & _ & Hrun).
    assert (key ∉ settings.*1) as Hfresh.
    { apply NoDup_app in Hnd as (_ & Hdis & _). intros Hin.
      apply (Hdis _ Hin). by left. }
    apply IH in Hrun.
    + by rewrite Hrun, dict_set_keys_fresh, <-app_assoc.
    + rewrite dict_set_keys_fresh by done. by rewrite <-app_assoc.
Qed.

(** X13. [get_extra_info] needs the [highlights] entry of the info dict it
    inherits: when the mixin hands back a dict without it (or with
    something that is not a dict under that key) the method raises, and
    the persisted state is what the mixin left. *)
Theorem get_extra_info_needs_highlights
    (v : AllocationView) (t : Tournament) (round : nat) (db db1 : DB)
    (info : list (string * JSON)) :
  mixin_get_extra_info t round db = (Some info, db1) →
  (∀ inner, dict_get "highlights" info ≠ Some (JObj inner)) →
  get_extra_info v t round db = (None, db1).
Proof.
  intros Hmixin Hno.
  assert (Base_get_extra_info t round db = (None, db1)) as Hbase.
  { unfold Base_get_extra_info. rewrite (bind_eval _ _ _ _ _ Hmixin).
    apply bind_raises. unfold dict_set2.
    destruct (dict_get "highlights" info) as [[]|] eqn:E; try done.
    by destruct (Hno o). }
  destruct v; unfold get_extra_info; by apply bind_raises.
Qed.

Ltac dict_lookup :=
  repeat first [ rewrite dict_get_set_eq | rewrite dict_get_set_ne by done ].

Lemma Base_get_extra_info_payload (t : Tournament) (round : nat) (db db' : DB)
    (info : list (string * JSON)) :
  Base_get_extra_info t round db = (Some info, db') →
  extra_info_payload round info db'.
Proof.
  intros Hrun. unfold Base_get_extra_info in Hrun.
  apply bind_Some_inv in Hrun as (info0 & d0 & _ & Hrun).
  apply bind_Some_inv in Hrun as (info1 & d1 & Hg & Hrun).
  apply lift_inv in Hg as [(h0 & Hh0 & ->)%dict_set2_Some ->].
  apply bind_Some_inv in Hrun as (adj_min & d2 & _ & Hrun).
  apply bind_Some_inv in Hrun as (info2 & d3 & [-> ->]%ret_inv & Hrun).
  apply bind_Some_inv in Hrun as (adj_max & d4 & _ & Hrun).
  apply bind_Some_inv in Hrun as (info3 & d5 & [-> ->]%ret_inv & Hrun).
  apply bind_Some_inv in Hrun as (ranks & d6 & _ & Hrun).
  apply bind_Some_inv in Hrun as (info4 & d7 & Hr & Hrun).
  apply lift_inv in Hr as [(h1 & Hh1 & ->)%dict_set2_Some ->].
  apply bind_Some_inv in Hrun as (rs & d8 & [-> ->]%select_inv & Hrun).
  apply bind_Some_inv in Hrun as (info5 & d9 & Hreg & Hrun).
  apply lift_inv in Hreg as [(h2 & Hh2 & ->)%dict_set2_Some ->].
  apply bind_Some_inv in Hrun as (settings & d10 & Hset & Hrun).
  apply bind_Some_inv in Hrun as (info6 & d11 & [-> ->]%ret_inv & Hrun).
  apply bind_Some_inv in Hrun as (clashes & d12 & _ & Hrun).
  apply bind_Some_inv in Hrun as (info7 & d13 & [-> ->]%ret_inv & Hrun).
  apply bind_Some_inv in Hrun as (histories & d14 & _ & Hrun).
  apply bind_Some_inv in Hrun as (info8 & d15 & [-> ->]%ret_inv & Hrun).
  apply bind_Some_inv in Hrun as (has_panels & d16 & [-> ->]%select_inv & Hrun).
  apply ret_inv in Hrun as [-> ->].
  rewrite !dict_get_set_ne, dict_get_set_eq in Hh1 by done.
  injection Hh1 as <-.
  rewrite dict_get_set_eq in Hh2. injection Hh2 as <-.
  apply read_allocation_settings_keys in Hset;
    [|cbn; compute_done].
  unfold extra_info_payload. split_and!.
  - eexists _, ranks, _. split; [dict_lookup; reflexivity|].
    split_and!; by dict_lookup.
  - dict_lookup. by eexists.
  - dict_lookup. by eexists.
  - exists settings. split; [by dict_lookup|exact Hset].
  - dict_lookup. by eexists.
  - dict_lookup. by eexists.
  - by dict_lookup.
Qed.

Lemma extra_info_payload_transport (round : nat) (db : DB)
    (base info : list (string * JSON)) :
  (∀ k, k ≠ "backUrl" → k ≠ "backLabel" → dict_get k info = dict_get k base) →
  extra_info_payload round base db → extra_info_payload round info db.
Proof.
  intros Hsame. unfold extra_info_payload. by rewrite !Hsame.
Qed.

(** X14. What [get_extra_info] puts on the page, for both views: whenever
    it returns, the info dict has the four gender highlights, a rank and a
    region highlight, the adjudicator score bounds, the clashes and the
    histories, the allocation settings under exactly the six preference
    keys and in their order, and [hasPreformedPanels] says whether the
    round has a preformed panel in the database. *)
Theorem get_extra_info_payload
    (v : AllocationView) (t : Tournament) (round : nat) (db db' : DB)
    (info : list (string * JSON)) :
  get_extra_info v t round db = (Some info, db') →
  extra_info_payload round info db'.
Proof.
  destruct v; unfold get_extra_info; intros Hrun.
  - apply bind_Some_inv in Hrun as (base & d & Hbase & [-> ->]%ret_inv).
    by eapply Base_get_extra_info_payload.
  - apply bind_Some_inv in Hrun as (base & d & Hbase & Hrun).
    apply bind_Some_inv in Hrun as (info1 & d1 & [-> ->]%ret_inv & Hrun).
    apply ret_inv in Hrun as [-> ->].
    eapply extra_info_payload_transport;
      [|by eapply Base_get_extra_info_payload].
    intros k Hk1 Hk2. by rewrite !dict_get_set_ne.
Qed.

(** X15. The panel view differs from the base class in the back link
    only: whenever its [get_extra_info] returns, the base method returned
    too, [backUrl] is the reversed panel index and [backLabel] its label,
    whatever the inherited dict held under these keys, and every other
    entry is the base method's.  The debate view adds nothing at all. *)
Theorem panel_info_overrides_back_link
    (t : Tournament) (round : nat) (db db' : DB) (info : list (string * JSON)) :
  get_extra_info EditPanelAdjudicatorsView t round db = (Some info, db') →
  (∃ base,
      Base_get_extra_info t round db = (Some base, db')
      ∧ ∀ k, k ≠ "backUrl" → k ≠ "backLabel" →
             dict_get k info = dict_get k base)
  ∧ dict_get "backUrl" info
    = Some (JStr (reverse_url "panel-adjudicators-index" t))
  ∧ dict_get "backLabel" info = Some (JStr "Return to Panels Overview")
  ∧ get_extra_info EditDebateAdjudicatorsView t round db
    = Base_get_extra_info t round db.
Proof.
  unfold get_extra_info. intros Hrun.
  apply bind_Some_inv in Hrun as (base & d & Hbase & Hrun).
  apply bind_Some_inv in Hrun as (info1 & d1 & [-> ->]%ret_inv & Hrun).
  apply ret_inv in Hrun as [-> ->].
  split_and!.
  - exists base. split; [done|]. intros k Hk1 Hk2. by rewrite !dict_get_set_ne.
  - by dict_lookup.
  - by dict_lookup.
  - by rewrite (bind_eval _ _ _ _ _ Hbase).
Qed.

End MoreAllocationFacts.

(* ===================================================================== *)
(** * The further properties on the small tournament *)
(* ===================================================================== *)

Section MoreSample.
#[local] Existing Instance sample_collaborators.

Lemma editor_fields_enabled_witness :
  has_permission (user (sample_post 1))
    (edit_permission AdjudicatorAdjudicatorConflictsView) 7 = true
  ∧ ∃ fs,
      get_formset AdjudicatorAdjudicatorConflictsView (sample_post 1) 7 sample_db
        = Some fs
      ∧ ∀ form name f, form ∈ forms fs → fields form !! name = Some f →
          disabled f = false.
Proof.
  split; [reflexivity|].
  apply (editor_fields_enabled
           AdjudicatorAdjudicatorConflictsView (sample_post 1) 7 sample_db).
  reflexivity.
Defined.

Lemma adjudicator_options_witness :
  (AdjudicatorAdjudicatorConflictsView, "adjudicator2")
    ∈ [ (AdjudicatorTeamConflictsView, "adjudicator");
        (AdjudicatorAdjudicatorConflictsView, "adjudicator1");
        (AdjudicatorAdjudicatorConflictsView, "adjudicator2");
        (AdjudicatorInstitutionConflictsView, "adjudicator") ]
  ∧ ∃ fs,
      get_formset AdjudicatorAdjudicatorConflictsView (sample_get 1) 7 sample_db
        = Some fs
      ∧ ∀ form, form ∈ forms fs →
          ∃ f offered,
            fields form !! "adjudicator2" = Some f
            ∧ backing_rows sample_db f = AdjudicatorObj <$> offered
            ∧ offered = order_by adj_name (adjudicator_set 7 sample_db)
            ∧ StronglySorted (key_le adj_name) offered
            ∧ offered ≡ₚ filter (λ a, adj_tournament a = 7) (adjudicators sample_db)
            ∧ ∀ obj, label_from_instance f obj = Some (obj_str obj).
Proof.
  assert ((AdjudicatorAdjudicatorConflictsView, "adjudicator2")
            ∈ [ (AdjudicatorTeamConflictsView, "adjudicator");
                (AdjudicatorAdjudicatorConflictsView, "adjudicator1");
                (AdjudicatorAdjudicatorConflictsView, "adjudicator2");
                (AdjudicatorInstitutionConflictsView, "adjudicator") ]) as Hin.
  { apply (list_elem_of_lookup_2 _ 2). reflexivity. }
  split; [exact Hin|].
  exact (adjudicator_options_sorted_by_name
           AdjudicatorAdjudicatorConflictsView "adjudicator2" (sample_get 1) 7
           sample_db Hin).
Defined.

Lemma editable_rows_one_tournament_witness :
  {| pk := 1; fk1 := 1; fk2 := 1 |}
    ∈ get_formset_queryset AdjudicatorTeamConflictsView 7 sample_db
  ∧ {| pk := 1; fk1 := 1; fk2 := 1 |}
    ∈ get_formset_queryset AdjudicatorTeamConflictsView 7 sample_db
  ∧ 7 = 7.
Proof.
  assert ({| pk := 1; fk1 := 1; fk2 := 1 |}
            ∈ get_formset_queryset AdjudicatorTeamConflictsView 7 sample_db)
    as Hin.
  { apply (list_elem_of_lookup_2 _ 1). vm_compute. reflexivity. }
  split; [exact Hin|]. split; [exact Hin|].
  exact (editable_rows_belong_to_one_tournament
           AdjudicatorTeamConflictsView 7 7 sample_db _ Hin Hin).
Defined.

(** The row of the adjudicator of tournament 8 shows under tournament 8
    and not under tournament 7. *)
Example editable_rows_per_tournament :
  get_formset_queryset AdjudicatorTeamConflictsView 7 sample_db
    = [ {| pk := 2; fk1 := 2; fk2 := 2 |}; {| pk := 1; fk1 := 1; fk2 := 1 |} ]
  ∧ get_formset_queryset AdjudicatorTeamConflictsView 8 sample_db
    = [ {| pk := 3; fk1 := 3; fk2 := 3 |} ].
Proof. split; vm_compute; reflexivity. Qed.

Lemma page_context_witness :
  method (sample_get 2) = GET
  ∧ ∃ fs,
      get_formset TeamInstitutionConflictsView (sample_get 2) 7 sample_db
        = Some fs
      ∧ dispatch TeamInstitutionConflictsView (sample_get 2) 7 sample_db []
        = Some {| response :=
                    TemplateResponse "edit_conflicts.html"
                      (save_text TeamInstitutionConflictsView)
                      (has_permission (user (sample_get 2))
                         (edit_permission TeamInstitutionConflictsView) 7) fs;
                  db_after := sample_db; messages_after := [];
                  instances := [] |}
      ∧ can_delete (formset_class fs)
        = has_permission (user (sample_get 2))
            (edit_permission TeamInstitutionConflictsView) 7
      ∧ (has_permission (user (sample_get 2))
           (edit_permission TeamInstitutionConflictsView) 7 = false →
         all_fields_disabled fs).
Proof.
  split; [reflexivity|].
  apply (page_context_agrees_with_gate
           TeamInstitutionConflictsView (sample_get 2) 7 sample_db []).
  reflexivity.
Defined.

Lemma team_field_without_preference_witness :
  field_class sample_team_field = TeamChoiceField
  ∧ use_code_names sample_team_field = None
  ∧ (DedupModelChoiceIterator__iter__ sample_db sample_team_field).2
    = match backing_rows sample_db sample_team_field with
      | [] => Some (match empty_label sample_team_field with
                    | Some l => [(EmptyValue, l)]
                    | None => []
                    end)
      | _ :: _ => None
      end.
Proof.
  split; [reflexivity|]. split; [reflexivity|].
  apply (team_field_without_preference sample_team_field sample_db);
    reflexivity.
Defined.

(** With two teams to label the iteration fails; over an empty table it
    yields the blank option. *)
Example team_field_without_preference_computed :
  (DedupModelChoiceIterator__iter__ sample_db sample_team_field).2 = None
  ∧ (DedupModelChoiceIterator__iter__ sample_db_later
       {| field_class := TeamChoiceField; required := true; disabled := false;
          empty_label := Some "---------";
          queryset := tournament_teams short_name 9;
          use_code_names := None |}).2
    = Some [(EmptyValue, "---------")].
Proof. split; vm_compute; reflexivity. Qed.

Lemma shared_queryset_witness :
  Shared.querysets sample_heap !! 0 = Some (tournament_adjudicators 7)
  ∧ Forall (λ fo, Shared._queryset fo = 0)
      [ sample_field_obj; Shared.__deepcopy__ sample_field_obj;
        Shared.__deepcopy__ (Shared.__deepcopy__ sample_field_obj) ]
  ∧ [ sample_field_obj; Shared.__deepcopy__ sample_field_obj;
      Shared.__deepcopy__ (Shared.__deepcopy__ sample_field_obj) ] ≠ []
  ∧ Shared.hits
      (Shared.iter_objs sample_db sample_heap
         [ sample_field_obj; Shared.__deepcopy__ sample_field_obj;
           Shared.__deepcopy__ (Shared.__deepcopy__ sample_field_obj) ]).1
    = Shared.hits sample_heap
      + match _result_cache (tournament_adjudicators 7) with
        | Some _ => 0
        | None => 1
        end.
Proof.
  assert (Shared.querysets sample_heap !! 0 = Some (tournament_adjudicators 7))
    as Hl by reflexivity.
  assert (Forall (λ fo, Shared._queryset fo = 0)
            [ sample_field_obj; Shared.__deepcopy__ sample_field_obj;
              Shared.__deepcopy__ (Shared.__deepcopy__ sample_field_obj) ])
    as Hall by (repeat constructor).
  assert ([ sample_field_obj; Shared.__deepcopy__ sample_field_obj;
            Shared.__deepcopy__ (Shared.__deepcopy__ sample_field_obj) ] ≠ [])
    as Hne by discriminate.
  split; [exact Hl|]. split; [exact Hall|]. split; [exact Hne|].
  exact (proj1 (shared_queryset_hits_once sample_db sample_heap 0
                  (tournament_adjudicators 7) _ Hl Hall Hne)).
Defined.

(** Three field objects, one queryset, one trip to the database, the same
    options three times. *)
Example shared_queryset_computed :
  (λ res : Shared.Heap * list (option (option (list Choice))),
     (Shared.hits res.1,
      (λ o : option (option (list Choice)),
         (λ oo : option (list Choice), (λ out : list Choice, snd <$> out) <$> oo)
           <$> o) <$> res.2))
    (Shared.iter_objs sample_db sample_heap
       [ sample_field_obj; Shared.__deepcopy__ sample_field_obj;
         Shared.__deepcopy__ (Shared.__deepcopy__ sample_field_obj) ])
  = (1, [ Some (Some ["---------"; "2"; "1"]);
          Some (Some ["---------"; "2"; "1"]);
          Some (Some ["---------"; "2"; "1"]) ]).
Proof. vm_compute. reflexivity. Qed.

Lemma get_extra_info_needs_highlights_witness :
  Allocation.mixin_get_extra_info (AllocationCollaborators := bare_allocation_collaborators)
    7 1 sample_db
    = (Some [("backUrl", Allocation.JStr "/")], sample_db)
  ∧ (∀ inner,
       Allocation.dict_get "highlights" [("backUrl", Allocation.JStr "/")]
       ≠ Some (Allocation.JObj inner))
  ∧ Allocation.get_extra_info (H := bare_allocation_collaborators)
      Allocation.EditPanelAdjudicatorsView 7 1 sample_db
    = (None, sample_db).
Proof.
  assert (∀ inner,
            Allocation.dict_get "highlights" [("backUrl", Allocation.JStr "/")]
            ≠ Some (Allocation.JObj inner)) as Hno by (intros inner; discriminate).
  split; [reflexivity|]. split; [exact Hno|].
  apply (get_extra_info_needs_highlights (H := bare_allocation_collaborators)
           Allocation.EditPanelAdjudicatorsView 7 1 sample_db sample_db
           [("backUrl", Allocation.JStr "/")]); [reflexivity|exact Hno].
Defined.

Lemma get_extra_info_payload_witness :
  let info :=
    default []
      (Allocation.get_extra_info (H := sample_allocation_collaborators)
         Allocation.EditDebateAdjudicatorsView 7 1 sample_db).1 in
  Allocation.get_extra_info (H := sample_allocation_collaborators)
    Allocation.EditDebateAdjudicatorsView 7 1 sample_db
  = (Some info, sample_db)
  ∧ extra_info_payload 1 info sample_db.
Proof.
  cbv zeta. split; [vm_compute; reflexivity|].
  apply (get_extra_info_payload (H := sample_allocation_collaborators)
           Allocation.EditDebateAdjudicatorsView 7 1 sample_db sample_db).
  vm_compute; reflexivity.
Defined.

Lemma panel_info_witness :
  let info :=
    default []
      (Allocation.get_extra_info (H := sample_allocation_collaborators)
         Allocation.EditPanelAdjudicatorsView 7 1 sample_db).1 in
  Allocation.get_extra_info (H := sample_allocation_collaborators)
    Allocation.EditPanelAdjudicatorsView 7 1 sample_db
  = (Some info, sample_db)
  ∧ Allocation.dict_get "backUrl" info
    = Some (Allocation.JStr
              (Allocation.reverse_url (AllocationCollaborators := sample_allocation_collaborators)
                 "panel-adjudicators-index" 7)).
Proof.
  cbv zeta. split; [vm_compute; reflexivity|].
  apply (panel_info_overrides_back_link (H := sample_allocation_collaborators)
           7 1 sample_db sample_db).
  vm_compute; reflexivity.
Defined.

(** The keys of the info dict of the panel page, in order. *)
Example panel_info_keys_computed :
  (λ info : list (string * Allocation.JSON), info.*1)
    <$> (Allocation.get_extra_info (H := sample_allocation_collaborators)
           Allocation.EditPanelAdjudicatorsView 7 1 sample_db).1
  = Some [ "highlights"; "adjMinScore"; "adjMaxScore"; "allocationSettings";
           "clashes"; "histories"; "hasPreformedPanels"; "backUrl";
           "backLabel" ].
Proof. vm_compute. reflexivity. Qed.

End MoreSample.

(* ===================================================================== *)
(** * A submission without the edit permission *)
(* ===================================================================== *)

Section DeniedSubmission.
Context `{Collaborators}.


End DeniedSubmission.

